(** * stats/cloud/client.go: the Load Impact cloud API client

    A shallow embedding of [NewClient], [NewRequest], [Do] and
    [checkResponse], with the Go standard library (os, net/http,
    encoding/json) and github.com/pkg/errors behind an explicit interface,
    and the properties of the client proved over every implementation of
    that interface. *)

From Stdlib Require Import ZArith Ascii String List Bool Lia.
From stdpp Require Import base option list strings gmap.

Local Open Scope string_scope.
Local Open Scope list_scope.
Local Open Scope Z_scope.
Local Set Warnings "-register-all".

(** ** Go values *)

(** Errors that originate in the libraries the client calls.  [io_EOF] is
    the sentinel the client compares against; the others keep the data the
    library attaches to them. *)
Inductive LibError : Type :=
  | io_EOF
  | io_ErrUnexpectedEOF
  | json_SyntaxError (msg : string)
  | json_UnmarshalTypeError (value : string) (type : string)
  | json_InvalidUnmarshalError
  | json_MarshalError (msg : string)
  | http_Error (msg : string)
  | net_Error (msg : string).

(** A decoded JSON text.  Number literals keep their spelling (the library
    converts them only when it stores them); object members keep their
    order and their duplicates. *)
Inductive JSON : Type :=
  | JNull
  | JBool (b : bool)
  | JNumber (lit : string)
  | JString (s : string)
  | JArray (elems : list JSON)
  | JObject (members : list (string * JSON)).

(** [http.Header]: a map from canonical keys to value lists. *)
Abbreviation Header := (gmap string (list string)).

(** [http.Request], as far as the client touches it. *)
Record Request : Type := mkRequest {
  Method : string;
  URL : string;
  ReqHeader : Header;
  ReqBody : option string
}.

(** [io.ReadCloser] of a response: the connection it reads from and the
    bytes the peer sent on it. *)
Record ReadCloser : Type := mkBody {
  rc_conn : nat;
  rc_data : string
}.

(** [http.Response]. *)
Record Response : Type := mkResponse {
  StatusCode : Z;
  Body : ReadCloser
}.

(** Go's [error] interface, with the dynamic types this package can see.

    Modelled from the spec: [ErrNotAuthenticated], [ErrNotAuthorized] and
    the type [ErrorResponse] are declared elsewhere in package cloud; they
    are the two sentinel errors and the structured API error with the
    response, a message and a code. *)
Inductive error : Type :=
  | ErrNotAuthenticated
  | ErrNotAuthorized
  | ErrorResponse (Response_ : Response) (Message_ : string) (Code_ : Z)
  | Lib (e : LibError)
  | withStack (cause : error) (msg : string).

(** [errors.Wrap] of github.com/pkg/errors: nil stays nil, anything else is
    annotated with the message and keeps its cause. *)
Definition errors_Wrap (err : option error) (message : string) : option error :=
  match err with
  | None => None
  | Some e => Some (withStack e message)
  end.

(** [errors.Cause]: the innermost error that is not a wrapper. *)
Fixpoint errors_Cause (err : error) : error :=
  match err with
  | withStack c _ => errors_Cause c
  | e => e
  end.

(** [err == io.EOF]. *)
Definition is_io_EOF (err : option LibError) : bool :=
  match err with
  | Some io_EOF => true
  | _ => false
  end.

(** [time.Duration] counts nanoseconds. *)
Definition time_Second : Z := 1000000000.

Definition TIMEOUT : Z := 10 * time_Second.

(** [http.Client], of which the package sets the timeout only. *)
Record http_Client : Type := mk_http_Client {
  Timeout : Z
}.

(** Client handles communication with Load Impact cloud API. *)
Record Client : Type := mkClient {
  client : http_Client;
  token : string;
  baseURL : string;
  version : string
}.

(** ** The libraries *)

(** What the package calls and does not define: the environment, the HTTP
    transport, the JSON scanner and the closing of a body. *)
Class Platform : Type := {
  (** bits of Go's [int] *)
  IntSize : Z;
  (** [os.Getenv]: the empty string for an unset variable *)
  os_Getenv : string -> string;
  (** net/http's check of a method token *)
  validMethod : string -> bool;
  (** [url.Parse], as a check *)
  url_Parse : string -> option LibError;
  (** [http.Client.Do] *)
  http_Client_Do : http_Client -> Request -> Response + LibError;
  (** [json.Decoder.readValue] and the tokens it found: the next JSON
      value of the stream, or why there is none *)
  Decoder_readValue : ReadCloser -> LibError + JSON;
  (** [Body.Close] *)
  Body_Close : ReadCloser -> option LibError;
  (** encoding/json's case folding of an object key against a field name *)
  equalFold : string -> string -> bool
}.

(** [json.Marshal] is driven by the dynamic type of its argument. *)
Class Marshaler (D : Type) : Type := {
  json_Marshal : D -> string + LibError
}.

(** So is the storing of a decoded value into a target. *)
Class Unmarshaler (T : Type) : Type := {
  unmarshal : JSON -> T -> T * option LibError
}.

(** ** Effects *)

Inductive Target : Type := IntoErrorStruct | IntoOut.

Inductive Event : Type :=
  | EvSend (req : Request)
  | EvDecode (b : ReadCloser) (into : Target)
  | EvClose (b : ReadCloser)
  | EvLog (e : error).

(** A computation returns a value and the events it performed, in order. *)
Definition IO (A : Type) : Type := A * list Event.

Definition emit (e : Event) : IO unit := (tt, [e]).

#[export] Instance IO_ret : MRet IO := fun A a => (a, []).

#[export] Instance IO_bind : MBind IO := fun A B f m =>
  let (a, t1) := m in
  let (b, t2) := f a in
  (b, t1 ++ t2).

(** [defer f] around a body: [f] runs after the body has fixed the result. *)
Definition defer {A} (f : IO unit) (body : IO A) : IO A :=
  a ← body; f;; mret a.

Definition value {A} (m : IO A) : A := fst m.
Definition trace {A} (m : IO A) : list Event := snd m.

(** ** net/textproto and net/http *)

Definition is_lower (c : ascii) : bool :=
  let n := nat_of_ascii c in ((97 <=? n) && (n <=? 122))%nat.

Definition is_upper (c : ascii) : bool :=
  let n := nat_of_ascii c in ((65 <=? n) && (n <=? 90))%nat.

Definition is_digit (c : ascii) : bool :=
  let n := nat_of_ascii c in ((48 <=? n) && (n <=? 57))%nat.

Definition to_upper (c : ascii) : ascii :=
  if is_lower c then ascii_of_nat (nat_of_ascii c - 32) else c.

Definition to_lower (c : ascii) : ascii :=
  if is_upper c then ascii_of_nat (nat_of_ascii c + 32) else c.

Fixpoint string_forallb (p : ascii -> bool) (s : string) : bool :=
  match s with
  | EmptyString => true
  | String c s' => p c && string_forallb p s'
  end.

(** The token bytes of RFC 7230, which a header key is made of. *)
Definition validHeaderFieldByte (c : ascii) : bool :=
  is_lower c || is_upper c || is_digit c ||
  existsb (Ascii.eqb c)
    ["!"; "#"; "$"; "%"; "&"; "'"; "*"; "+"; "-"; "."; "^"; "_"; "`"; "|"; "~"]%char.

(** First letter and every letter after a dash in upper case, the others
    in lower case. *)
Fixpoint canonicalize (upper : bool) (a : string) : string :=
  match a with
  | EmptyString => EmptyString
  | String c a' =>
      let c' := if upper && is_lower c then to_upper c
                else if negb upper && is_upper c then to_lower c
                else c in
      String c' (canonicalize (Ascii.eqb c' "-") a')
  end.

(** [textproto.CanonicalMIMEHeaderKey]: a key with a byte that is not a
    token byte is returned unchanged. *)
Definition CanonicalMIMEHeaderKey (s : string) : string :=
  if string_forallb validHeaderFieldByte s then canonicalize true s else s.

(** [Header.Set]: the key's entry is replaced by the single value. *)
Definition Header_Set (h : Header) (key value : string) : Header :=
  <[CanonicalMIMEHeaderKey key := [value]]> h.

Definition set_header (req : Request) (key value : string) : Request :=
  {| Method := Method req; URL := URL req;
     ReqHeader := Header_Set (ReqHeader req) key value;
     ReqBody := ReqBody req |}.

(** ** strconv *)

Definition digit_val (c : ascii) : Z := Z.of_nat (nat_of_ascii c) - 48.

Fixpoint parse_digits (acc : Z) (s : string) : option Z :=
  match s with
  | EmptyString => Some acc
  | String c s' =>
      if is_digit c then parse_digits (10 * acc + digit_val c) s' else None
  end.

(** [strconv.ParseInt(s, 10, 64)]: an optional sign and at least one
    decimal digit, the value within 64 bits; [None] for its errors. *)
Definition strconv_ParseInt (s : string) : option Z :=
  let '(neg, digits) :=
    match s with
    | String "+" s' => (false, s')
    | String "-" s' => (true, s')
    | _ => (false, s)
    end in
  match digits with
  | EmptyString => None
  | _ =>
      match parse_digits 0 digits with
      | None => None
      | Some un =>
          let n := if neg then - un else un in
          if (- 2 ^ 63 <=? n) && (n <=? 2 ^ 63 - 1) then Some n else None
      end
  end.

(** What a call of [Do] leaves behind: the error it returns, the request
    as it now is, and the value [v] points to. *)
Record Outcome (T : Type) : Type := mkOutcome {
  err_of : option error;
  req_of : Request;
  out_of : option T
}.
Arguments mkOutcome {T}.
Arguments err_of {T}.
Arguments req_of {T}.
Arguments out_of {T}.

Section Client.

Context `{P : Platform}.

(** [reflect.Value.OverflowInt] for Go's [int]. *)
Definition OverflowInt (n : Z) : bool :=
  negb ((- 2 ^ (IntSize - 1) <=? n) && (n <=? 2 ^ (IntSize - 1) - 1)).

(** [http.NewRequest]: an empty method means GET; the method and the URL
    are checked; the request starts with an empty header and the body it
    was given. *)
Definition http_NewRequest (method urlStr : string) (body : option string)
  : Request + LibError :=
  let method := if String.eqb method "" then "GET" else method in
  if negb (validMethod method) then inr (http_Error "net/http: invalid method")
  else
    match url_Parse urlStr with
    | Some err => inr err
    | None => inl {| Method := method; URL := urlStr; ReqHeader := ∅; ReqBody := body |}
    end.

(** ** encoding/json: storing a value *)

(** The field a key selects: one with exactly that name, else the first
    one that matches under case folding. *)
Definition find_field (fields : list string) (key : string) : option string :=
  match List.find (String.eqb key) fields with
  | Some f => Some f
  | None => List.find (fun f => equalFold f key) fields
  end.

(** What [UnmarshalTypeError] calls the value. *)
Definition json_kind (j : JSON) : string :=
  match j with
  | JNull => "null"
  | JBool _ => "bool"
  | JNumber _ => "number"
  | JString _ => "string"
  | JArray _ => "array"
  | JObject _ => "object"
  end.

(** The API's error object: [{message, code}]. *)
Record errorDataT : Type := mkErrorData {
  Message : string;
  Code : Z
}.

(** The anonymous struct of [checkResponse], with its one field tagged
    [json:"error"]. *)
Record errorStructT : Type := mkErrorStruct {
  ErrorData : errorDataT
}.

(** Storing into a [string] field. *)
Definition store_string (j : JSON) (old : string) : string * option LibError :=
  match j with
  | JNull => (old, None)
  | JString s => (s, None)
  | _ => (old, Some (json_UnmarshalTypeError (json_kind j) "string"))
  end.

(** Storing into an [int] field. *)
Definition store_int (j : JSON) (old : Z) : Z * option LibError :=
  match j with
  | JNull => (old, None)
  | JNumber lit =>
      match strconv_ParseInt lit with
      | Some n =>
          if OverflowInt n
          then (old, Some (json_UnmarshalTypeError ("number " +:+ lit) "int"))
          else (n, None)
      | None => (old, Some (json_UnmarshalTypeError ("number " +:+ lit) "int"))
      end
  | _ => (old, Some (json_UnmarshalTypeError (json_kind j) "int"))
  end.

(** [saveError]: the storing goes on after a type error, and the first
    one is reported at the end. *)
Definition saveError (saved new : option LibError) : option LibError :=
  match saved with
  | Some e => Some e
  | None => new
  end.

(** Storing into a struct: null is ignored, an object is stored member by
    member, anything else is a type error. *)
Definition store_struct {S} (type : string)
    (member : string -> JSON -> S -> S * option LibError)
    (j : JSON) (old : S) : S * option LibError :=
  match j with
  | JNull => (old, None)
  | JObject members =>
      fold_left
        (fun (acc : S * option LibError) (kv : string * JSON) =>
           let '(s, saved) := acc in
           let '(s', err) := member (fst kv) (snd kv) s in
           (s', saveError saved err))
        members (old, None)
  | _ => (old, Some (json_UnmarshalTypeError (json_kind j) type))
  end.

Definition store_errorData_member (key : string) (j : JSON) (d : errorDataT)
  : errorDataT * option LibError :=
  match find_field ["message"; "code"] key with
  | Some f =>
      if String.eqb f "message" then
        let '(m, err) := store_string j (Message d) in
        ({| Message := m; Code := Code d |}, err)
      else if String.eqb f "code" then
        let '(c, err) := store_int j (Code d) in
        ({| Message := Message d; Code := c |}, err)
      else (d, None)
  | None => (d, None)
  end.

Definition store_errorStruct_member (key : string) (j : JSON) (s : errorStructT)
  : errorStructT * option LibError :=
  match find_field ["error"] key with
  | Some _ =>
      let '(d, err) := store_struct "struct" store_errorData_member j (ErrorData s) in
      ({| ErrorData := d |}, err)
  | None => (s, None)
  end.

#[export] Instance errorStruct_Unmarshaler : Unmarshaler errorStructT := {
  unmarshal := store_struct "struct" store_errorStruct_member
}.

(** [json.NewDecoder(body).Decode(v)]: the next value is read from the
    stream; if there is none the target is not touched, otherwise the
    value is stored.  How far the stream has been read is not kept: a call
    of [Do] decodes a body at most once ([Do_trace_response] below). *)
Definition Decoder_Decode {T} `{Unmarshaler T}
    (body : ReadCloser) (into : Target) (v : T) : IO (T * option LibError) :=
  emit (EvDecode body into);;
  match Decoder_readValue body with
  | inl err => mret (v, Some err)
  | inr j => mret (unmarshal j v)
  end.

(** ** The client *)

Definition NewClient (token host version : string) : Client :=
  let client := {| Timeout := TIMEOUT |} in
  let hostEnv := os_Getenv "K6CLOUD_HOST" in
  let host := if negb (String.eqb hostEnv "") then hostEnv else host in
  let host := if String.eqb host "" then "https://ingest.loadimpact.com" else host in
  let baseURL := host +:+ "/v1" in
  {| client := client; token := token; baseURL := baseURL; version := version |}.

Definition NewRequest {D} `{Marshaler D}
    (c : Client) (method url : string) (data : option D) : Request + LibError :=
  match data with
  | Some d =>
      match json_Marshal d with
      | inr err => inr err
      | inl b => http_NewRequest method url (Some b)
      end
  | None => http_NewRequest method url None
  end.

Definition checkResponse (r : Response) : IO (option error) :=
  let c := StatusCode r in
  if (200 <=? c) && (c <=? 299) then mret None
  else if StatusCode r =? 401 then mret (Some ErrNotAuthenticated)
  else if StatusCode r =? 403 then mret (Some ErrNotAuthorized)
  else
    let errorStruct := {| ErrorData := {| Message := ""; Code := 0 |} |} in
    '(errorStruct, err) ← Decoder_Decode (Body r) IntoErrorStruct errorStruct;
    match err with
    | Some e => mret (errors_Wrap (Some (Lib e)) "Non-standard API error response")
    | None =>
        mret (Some (ErrorResponse r (Message (ErrorData errorStruct))
                                   (Code (ErrorData errorStruct))))
    end.

(** The deferred function of [Do]. *)
Definition close_body (resp : Response) : IO unit :=
  emit (EvClose (Body resp));;
  match Body_Close (Body resp) with
  | Some err => emit (EvLog (Lib err))
  | None => mret tt
  end.

Definition Do {T} `{Unmarshaler T}
    (c : Client) (req : Request) (v : option T) : IO (Outcome T) :=
  let req := set_header req "Content-Type" "application/json" in
  let req := set_header req "Authorization" ("Token " +:+ token c) in
  let req := set_header req "User-Agent" ("k6cloud/" +:+ version c) in
  emit (EvSend req);;
  match http_Client_Do (client c) req with
  | inr err => mret (mkOutcome (Some (Lib err)) req v)
  | inl resp =>
      defer (close_body resp)
        (err ← checkResponse resp;
         match err with
         | Some e => mret (mkOutcome (Some e) req v)
         | None =>
             match v with
             | Some t =>
                 '(t', err) ← Decoder_Decode (Body resp) IntoOut t;
                 let err := if is_io_EOF err then None else err in
                 mret (mkOutcome (option_map Lib err) req (Some t'))
             | None => mret (mkOutcome None req None)
             end
         end)
  end.

End Client.

(** ** Vocabulary of the properties *)

Section Vocabulary.

Context `{P : Platform}.

(** The request as [Do] hands it to the transport. *)
Definition stamped (c : Client) (req : Request) : Request :=
  set_header
    (set_header
       (set_header req "Content-Type" "application/json")
       "Authorization" ("Token " +:+ token c))
    "User-Agent" ("k6cloud/" +:+ version c).

(** The value [checkResponse] decodes into. *)
Definition zeroErrorStruct : errorStructT :=
  {| ErrorData := {| Message := ""; Code := 0 |} |}.

(** A key that selects the field [name] among [fields]. *)
Definition selects (fields : list string) (name key : string) : bool :=
  match find_field fields key with
  | Some f => String.eqb f name
  | None => false
  end.

(** The payload has a member for the field [name] of its error object. *)
Definition has_member (name : string) (j : JSON) : bool :=
  match j with
  | JObject members =>
      existsb
        (fun kv =>
           match find_field ["error"] (fst kv), snd kv with
           | Some _, JObject members' =>
               existsb (fun kv' => selects ["message"; "code"] name (fst kv')) members'
           | _, _ => false
           end)
        members
  | _ => false
  end.

(** What a [string] field takes without a type error. *)
Definition string_ok (j : JSON) : bool :=
  match j with
  | JNull | JString _ => true
  | _ => false
  end.

(** What an [int] field takes without a type error: null, or an integer
    literal within the bits of [int]. *)
Definition int_ok (j : JSON) : bool :=
  match j with
  | JNull => true
  | JNumber lit =>
      match strconv_ParseInt lit with
      | Some n => negb (OverflowInt n)
      | None => false
      end
  | _ => false
  end.

(** A member of the error object that selects no field, or whose value
    its field takes. *)
Definition errorData_member_ok (kv : string * JSON) : bool :=
  match find_field ["message"; "code"] (fst kv) with
  | Some f =>
      if String.eqb f "message" then string_ok (snd kv)
      else if String.eqb f "code" then int_ok (snd kv)
      else true
  | None => true
  end.

Definition errorData_ok (j : JSON) : bool :=
  match j with
  | JNull => true
  | JObject members => forallb errorData_member_ok members
  | _ => false
  end.

Definition errorStruct_member_ok (kv : string * JSON) : bool :=
  match find_field ["error"] (fst kv) with
  | Some _ => errorData_ok (snd kv)
  | None => true
  end.

(** The payloads of the shape the API's errors have: null, or an object
    whose error members are null or objects with a string or null for the
    message and an integer or null for the code. *)
Definition well_shaped (j : JSON) : bool :=
  match j with
  | JNull => true
  | JObject members => forallb errorStruct_member_ok members
  | _ => false
  end.


End Vocabulary.

Definition is_close (ev : Event) : bool :=
  match ev with
  | EvClose _ => true
  | _ => false
  end.

Definition is_decode (ev : Event) : bool :=
  match ev with
  | EvDecode _ _ => true
  | _ => false
  end.

Definition is_send (ev : Event) : bool :=
  match ev with
  | EvSend _ => true
  | _ => false
  end.

(** How often a body was read from. *)
Definition decodes (t : list Event) : nat := length (List.filter is_decode t).

(** How often a body was closed. *)
Definition closes (t : list Event) : nat := length (List.filter is_close t).

(** The same platform with bodies that close differently. *)
Definition with_Close (P : Platform) (close : ReadCloser -> option LibError) : Platform :=
  {| IntSize := @IntSize P;
     os_Getenv := @os_Getenv P;
     validMethod := @validMethod P;
     url_Parse := @url_Parse P;
     http_Client_Do := @http_Client_Do P;
     Decoder_readValue := @Decoder_readValue P;
     Body_Close := close;
     equalFold := @equalFold P |}.

(** ** An in-memory platform

    A platform to run the client on: a fixed environment, a server given as
    a function, and a reader of JSON texts that follows the library's
    scanner on the bytes of a body. *)

Module Mem.

(** The result of reading at the front of a stream. *)
Inductive Scan (A : Type) : Type :=
  | ScanOk (a : A) (rest : string)
  | ScanErr (e : LibError).
Arguments ScanOk {A}.
Arguments ScanErr {A}.

Definition scan_map {A B} (f : A -> B) (r : Scan A) : Scan B :=
  match r with
  | ScanOk a rest => ScanOk (f a) rest
  | ScanErr e => ScanErr e
  end.

Definition byte (c : ascii) : Z := Z.of_nat (nat_of_ascii c).

Definition of_byte (n : Z) : ascii := ascii_of_nat (Z.to_nat n).

Definition isSpace (c : ascii) : bool :=
  existsb (Z.eqb (byte c)) [32; 9; 13; 10].

Fixpoint skip_space (s : string) : string :=
  match s with
  | String c s' => if isSpace c then skip_space s' else s
  | EmptyString => EmptyString
  end.

Definition hex_val (c : ascii) : option Z :=
  let n := byte c in
  if (48 <=? n) && (n <=? 57) then Some (n - 48)
  else if (97 <=? n) && (n <=? 102) then Some (n - 87)
  else if (65 <=? n) && (n <=? 70) then Some (n - 55)
  else None.

(** [getu4] after the backslash and the u: four hexadecimal digits. *)
Definition getu4 (s : string) : Scan Z :=
  match s with
  | String a (String b (String c (String d rest))) =>
      match hex_val a, hex_val b, hex_val c, hex_val d with
      | Some x, Some y, Some z, Some w =>
          ScanOk (4096 * x + 256 * y + 16 * z + w) rest
      | _, _, _, _ =>
          ScanErr (json_SyntaxError "invalid character in \u hexadecimal character escape")
      end
  | _ =>
      if string_forallb (fun c => match hex_val c with Some _ => true | None => false end) s
      then ScanErr io_ErrUnexpectedEOF
      else ScanErr (json_SyntaxError "invalid character in \u hexadecimal character escape")
  end.

(** [utf8.EncodeRune]. *)
Definition EncodeRune (r : Z) : string :=
  let cont x := of_byte (128 + Z.land x 63) in
  if r <? 128 then String (of_byte r) EmptyString
  else if r <? 2048 then
    String (of_byte (192 + Z.shiftr r 6)) (String (cont r) EmptyString)
  else if r <? 65536 then
    String (of_byte (224 + Z.shiftr r 12))
      (String (cont (Z.shiftr r 6)) (String (cont r) EmptyString))
  else
    String (of_byte (240 + Z.shiftr r 18))
      (String (cont (Z.shiftr r 12))
         (String (cont (Z.shiftr r 6)) (String (cont r) EmptyString))).

Definition ReplacementChar : Z := 65533.

Definition IsSurrogate (r : Z) : bool := (55296 <=? r) && (r <? 57344).

(** [utf16.DecodeRune]: a high and a low surrogate give a code point. *)
Definition utf16_DecodeRune (r1 r2 : Z) : Z :=
  if (55296 <=? r1) && (r1 <? 56320) && (56320 <=? r2) && (r2 <? 57344)
  then 65536 + 1024 * (r1 - 55296) + (r2 - 56320)
  else ReplacementChar.

(** The second half of a surrogate pair, when the text goes on with one. *)
Definition next_u4 (s : string) : option (Z * string) :=
  match s with
  | String "\" (String "u" s') =>
      match getu4 s' with
      | ScanOk r rest => Some (r, rest)
      | ScanErr _ => None
      end
  | _ => None
  end.

Definition in_range (lo hi : Z) (c : ascii) : bool :=
  (lo <=? byte c) && (byte c <=? hi).

(** The length of the well-formed UTF-8 sequence at the front of [s] that
    starts with the byte [c], or 0 if there is none. *)
Definition utf8_len (c : ascii) (s : string) : nat :=
  let cont := in_range 128 191 in
  match s with
  | String b1 s1 =>
      if in_range 194 223 c then (if cont b1 then 2 else 0)
      else
        match s1 with
        | String b2 s2 =>
            let three :=
              (in_range 224 224 c && in_range 160 191 b1) ||
              (in_range 225 236 c && cont b1) ||
              (in_range 237 237 c && in_range 128 159 b1) ||
              (in_range 238 239 c && cont b1) in
            if three then (if cont b2 then 3 else 0)
            else
              match s2 with
              | String b3 _ =>
                  let four :=
                    (in_range 240 240 c && in_range 144 191 b1) ||
                    (in_range 241 243 c && cont b1) ||
                    (in_range 244 244 c && in_range 128 143 b1) in
                  if four && cont b2 && cont b3 then 4 else 0
              | EmptyString => 0
              end
        | EmptyString => 0
        end
  | EmptyString => 0
  end%nat.

Fixpoint take (n : nat) (s : string) : string :=
  match n, s with
  | S n', String c s' => String c (take n' s')
  | _, _ => EmptyString
  end.

Fixpoint drop (n : nat) (s : string) : string :=
  match n, s with
  | S n', String _ s' => drop n' s'
  | _, _ => s
  end.

Definition simple_escape (c : ascii) : option ascii :=
  let n := byte c in
  if n =? 34 then Some c
  else if n =? 92 then Some c
  else if n =? 47 then Some c
  else if n =? 98 then Some (of_byte 8)
  else if n =? 102 then Some (of_byte 12)
  else if n =? 110 then Some (of_byte 10)
  else if n =? 114 then Some (of_byte 13)
  else if n =? 116 then Some (of_byte 9)
  else None.

(** A string literal after its opening quote, unquoted: escapes are
    replaced, malformed UTF-8 becomes U+FFFD. *)
Fixpoint scan_string (fuel : nat) (s : string) : Scan string :=
  match fuel with
  | O => ScanErr io_ErrUnexpectedEOF
  | S fuel =>
      match s with
      | EmptyString => ScanErr io_ErrUnexpectedEOF
      | String c s' =>
          if byte c =? 34 then ScanOk EmptyString s'
          else if byte c =? 92 then
            match s' with
            | EmptyString => ScanErr io_ErrUnexpectedEOF
            | String e s'' =>
                if byte e =? 117 then
                  match getu4 s'' with
                  | ScanErr err => ScanErr err
                  | ScanOk r rest =>
                      if IsSurrogate r then
                        match next_u4 rest with
                        | Some (r2, rest2) =>
                            if utf16_DecodeRune r r2 =? ReplacementChar
                            then scan_map (String.append (EncodeRune ReplacementChar))
                                   (scan_string fuel rest)
                            else scan_map (String.append (EncodeRune (utf16_DecodeRune r r2)))
                                   (scan_string fuel rest2)
                        | None =>
                            scan_map (String.append (EncodeRune ReplacementChar))
                              (scan_string fuel rest)
                        end
                      else scan_map (String.append (EncodeRune r)) (scan_string fuel rest)
                  end
                else
                  match simple_escape e with
                  | Some x => scan_map (String x) (scan_string fuel s'')
                  | None => ScanErr (json_SyntaxError "invalid character in string escape code")
                  end
            end
          else if byte c <? 32 then
            ScanErr (json_SyntaxError "invalid character in string literal")
          else if byte c <? 128 then scan_map (String c) (scan_string fuel s')
          else
            match utf8_len c s' with
            | O => scan_map (String.append (EncodeRune ReplacementChar)) (scan_string fuel s')
            | S n => scan_map (String.append (String c (take n s')))
                       (scan_string fuel (drop n s'))
            end
      end
  end.

(** The longest run of decimal digits at the front. *)
Fixpoint span_digits (s : string) : string * string :=
  match s with
  | String c s' =>
      if is_digit c
      then let '(d, rest) := span_digits s' in (String c d, rest)
      else (EmptyString, s)
  | EmptyString => (EmptyString, EmptyString)
  end.

Definition in_number : LibError := json_SyntaxError "invalid character in numeric literal".

(** At least one digit. *)
Definition scan_digits1 (s : string) : Scan string :=
  match span_digits s with
  | (EmptyString, EmptyString) => ScanErr io_ErrUnexpectedEOF
  | (EmptyString, _) => ScanErr in_number
  | (d, rest) => ScanOk d rest
  end.

(** The integer part: a single 0, or digits that start with 1 to 9. *)
Definition scan_int (s : string) : Scan string :=
  match s with
  | EmptyString => ScanErr io_ErrUnexpectedEOF
  | String c s' =>
      if byte c =? 48 then ScanOk (String c EmptyString) s'
      else if is_digit c then scan_digits1 s
      else ScanErr in_number
  end.

Definition scan_frac (s : string) : Scan string :=
  match s with
  | String c s' =>
      if byte c =? 46 then scan_map (String c) (scan_digits1 s')
      else ScanOk EmptyString s
  | EmptyString => ScanOk EmptyString s
  end.

Definition scan_exp (s : string) : Scan string :=
  match s with
  | String c s' =>
      if (byte c =? 101) || (byte c =? 69) then
        match s' with
        | String sg s'' =>
            if (byte sg =? 43) || (byte sg =? 45)
            then scan_map (fun d => String c (String sg d)) (scan_digits1 s'')
            else scan_map (String c) (scan_digits1 s')
        | EmptyString => ScanErr io_ErrUnexpectedEOF
        end
      else ScanOk EmptyString s
  | EmptyString => ScanOk EmptyString s
  end.

Definition scan_then {A B} (r : Scan A) (k : A -> string -> Scan B) : Scan B :=
  match r with
  | ScanOk a rest => k a rest
  | ScanErr e => ScanErr e
  end.

(** A number literal, spelled as in the text. *)
Definition scan_number (s : string) : Scan string :=
  let '(sign, s1) :=
    match s with
    | String c s' => if byte c =? 45 then (String c EmptyString, s') else (EmptyString, s)
    | EmptyString => (EmptyString, s)
    end in
  scan_then (scan_int s1) (fun i s2 =>
  scan_then (scan_frac s2) (fun f s3 =>
  scan_then (scan_exp s3) (fun e s4 =>
  ScanOk (sign +:+ i +:+ f +:+ e) s4))).

(** The rest of [true], [false] or [null] after its first letter. *)
Fixpoint scan_literal (word s : string) : Scan unit :=
  match word with
  | EmptyString => ScanOk tt s
  | String w word' =>
      match s with
      | EmptyString => ScanErr io_ErrUnexpectedEOF
      | String c s' =>
          if Ascii.eqb c w then scan_literal word' s'
          else ScanErr (json_SyntaxError "invalid character in literal")
      end
  end.

(** After a value inside an array or an object: a comma or the closing
    bracket. *)
Inductive Sep : Type := Comma | Close.

Definition scan_sep (close : Z) (what : string) (s : string) : Scan Sep :=
  match skip_space s with
  | EmptyString => ScanErr io_ErrUnexpectedEOF
  | String c s' =>
      if byte c =? 44 then ScanOk Comma s'
      else if byte c =? close then ScanOk Close s'
      else ScanErr (json_SyntaxError ("invalid character after " +:+ what))
  end.

(** An object key and its colon. *)
Definition scan_key (s : string) : Scan string :=
  match skip_space s with
  | EmptyString => ScanErr io_ErrUnexpectedEOF
  | String c s' =>
      if byte c =? 34 then
        scan_then (scan_string (S (String.length s')) s') (fun k s1 =>
          match skip_space s1 with
          | EmptyString => ScanErr io_ErrUnexpectedEOF
          | String c1 s2 =>
              if byte c1 =? 58 then ScanOk k s2
              else ScanErr (json_SyntaxError "invalid character after object key")
          end)
      else ScanErr (json_SyntaxError "invalid character looking for beginning of object key string")
  end.

(** One JSON value at the front of the text, after optional space. *)
Fixpoint scan_value (fuel : nat) (s : string) : Scan JSON :=
  match fuel with
  | O => ScanErr (json_SyntaxError "exceeded max depth")
  | S fuel =>
      match skip_space s with
      | EmptyString => ScanErr io_ErrUnexpectedEOF
      | String c s' =>
          if byte c =? 123 then
            match skip_space s' with
            | EmptyString => ScanErr io_ErrUnexpectedEOF
            | String c1 s1 =>
                if byte c1 =? 125 then ScanOk (JObject []) s1
                else scan_map JObject (scan_members fuel s')
            end
          else if byte c =? 91 then
            match skip_space s' with
            | EmptyString => ScanErr io_ErrUnexpectedEOF
            | String c1 s1 =>
                if byte c1 =? 93 then ScanOk (JArray []) s1
                else scan_map JArray (scan_elems fuel s')
            end
          else if byte c =? 34 then
            scan_map JString (scan_string (S (String.length s')) s')
          else if (byte c =? 45) || is_digit c then
            scan_map JNumber (scan_number (String c s'))
          else if byte c =? 116 then
            scan_map (fun _ => JBool true) (scan_literal "rue" s')
          else if byte c =? 102 then
            scan_map (fun _ => JBool false) (scan_literal "alse" s')
          else if byte c =? 110 then
            scan_map (fun _ => JNull) (scan_literal "ull" s')
          else ScanErr (json_SyntaxError "invalid character looking for beginning of value")
      end
  end
with scan_members (fuel : nat) (s : string) : Scan (list (string * JSON)) :=
  match fuel with
  | O => ScanErr (json_SyntaxError "exceeded max depth")
  | S fuel =>
      scan_then (scan_key s) (fun k s1 =>
      scan_then (scan_value fuel s1) (fun v s2 =>
      scan_then (scan_sep 125 "object key:value pair" s2) (fun sep s3 =>
        match sep with
        | Close => ScanOk [(k, v)] s3
        | Comma => scan_map (cons (k, v)) (scan_members fuel s3)
        end)))
  end
with scan_elems (fuel : nat) (s : string) : Scan (list JSON) :=
  match fuel with
  | O => ScanErr (json_SyntaxError "exceeded max depth")
  | S fuel =>
      scan_then (scan_value fuel s) (fun v s1 =>
      scan_then (scan_sep 93 "array element" s1) (fun sep s2 =>
        match sep with
        | Close => ScanOk [v] s2
        | Comma => scan_map (cons v) (scan_elems fuel s2)
        end))
  end.

(** [readValue] on a body held in memory: end of input before any value
    is [io.EOF], end of input inside a value is [io.ErrUnexpectedEOF]. *)
Definition readValue (body : ReadCloser) : LibError + JSON :=
  match skip_space (rc_data body) with
  | EmptyString => inl io_EOF
  | s =>
      match scan_value (S (String.length s)) s with
      | ScanOk j _ => inr j
      | ScanErr e => inl e
      end
  end.

(** encoding/json's fold of a key against an ASCII field name: letters
    match in either case, and U+017F and U+212A stand for s and k. *)
Fixpoint equalFoldRight (s t : string) : bool :=
  match s with
  | EmptyString => match t with EmptyString => true | _ => false end
  | String sb s' =>
      match t with
      | EmptyString => false
      | String tb t1 =>
          if byte tb <? 128 then
            (Ascii.eqb sb tb ||
             ((is_lower sb || is_upper sb) && Ascii.eqb (to_upper sb) (to_upper tb)))
            && equalFoldRight s' t1
          else
            match t1 with
            | String b1 t2 =>
                if (byte (to_upper sb) =? 83) && (byte tb =? 197) && (byte b1 =? 191)
                then equalFoldRight s' t2
                else
                  match t2 with
                  | String b2 t3 =>
                      (byte (to_upper sb) =? 75) && (byte tb =? 226)
                      && (byte b1 =? 132) && (byte b2 =? 170)
                      && equalFoldRight s' t3
                  | EmptyString => false
                  end
            | EmptyString => false
            end
      end
  end.

(** Method tokens. *)
Definition is_token (method : string) : bool :=
  negb (String.eqb method "") && string_forallb validHeaderFieldByte method.

(** A URL is refused here for a control byte or a space only. *)
Definition check_url (u : string) : option LibError :=
  if string_forallb (fun c => (32 <? byte c) && negb (byte c =? 127)) u
  then None
  else Some (net_Error "parse: invalid character in URL").

Fixpoint getenv (env : list (string * string)) (key : string) : string :=
  match env with
  | [] => ""
  | (k, v) :: env' => if String.eqb k key then v else getenv env' key
  end.

(** The platform of a 64-bit machine with the environment [env], the
    server [server] and bodies that close as [close] says. *)
Definition platform (env : list (string * string))
    (server : Request -> Response + LibError)
    (close : ReadCloser -> option LibError) : Platform :=
  {| IntSize := 64;
     os_Getenv := getenv env;
     validMethod := is_token;
     url_Parse := check_url;
     http_Client_Do := fun _ req => server req;
     Decoder_readValue := readValue;
     Body_Close := close;
     equalFold := equalFoldRight |}.

End Mem.

(** ** Sample data *)

Module Sample.

Definition dquote : string := String (ascii_of_nat 34) EmptyString.

Definition quoted (s : string) : string := dquote +:+ s +:+ dquote.

(** The text [{"error":{"message":"m","code":7}}], with its quotes. *)
Definition error_m_7 : string :=
  "{" +:+ quoted "error" +:+ ":{" +:+ quoted "message" +:+ ":" +:+ quoted "m"
  +:+ "," +:+ quoted "code" +:+ ":7}}".

(** The value that text denotes. *)
Definition payload_m_7 : JSON :=
  JObject [("error", JObject [("message", JString "m"); ("code", JNumber "7")])].

Definition response (status : Z) (data : string) : Response :=
  {| StatusCode := status; Body := {| rc_conn := 1; rc_data := data |} |}.

(** A server that answers every request with the same response. *)
Definition serve (status : Z) (data : string) : Request -> Response + LibError :=
  fun _ => inl (response status data).

Definition closes_fine : ReadCloser -> option LibError := fun _ => None.

Definition closes_badly : ReadCloser -> option LibError :=
  fun _ => Some (net_Error "use of closed network connection").

Definition platform (status : Z) (data : string) : Platform :=
  Mem.platform [] (serve status data) closes_fine.

Definition refused : LibError := net_Error "dial tcp: connection refused".

Definition offline : Platform :=
  Mem.platform [] (fun _ => inr refused) closes_fine.

(** The platforms of the examples: the status and the body the server
    answers with. *)
Definition on_204 : Platform := platform 204 "<html>".
Definition on_401 : Platform := platform 401 "<html>".
Definition on_403 : Platform := platform 403 error_m_7.
Definition on_500 : Platform := platform 500 error_m_7.
Definition empty_error : string := "{" +:+ quoted "error" +:+ ":{}}".
Definition on_502 : Platform := platform 502 empty_error.
Definition on_404 : Platform := platform 404 "Not Found".
Definition on_200_empty : Platform := platform 200 "".
Definition on_200_cut : Platform := platform 200 "{".
Definition on_200_m_7 : Platform := platform 200 error_m_7.
Definition on_200_badly : Platform := Mem.platform [] (serve 200 error_m_7) closes_badly.
Definition with_host : Platform :=
  Mem.platform [("K6CLOUD_HOST", "https://example.test")] (serve 200 "") closes_fine.

(** The text [{"error":{"message":"m","code":"x"}}]: a code that is no
    number. *)
Definition error_m_x : string :=
  "{" +:+ quoted "error" +:+ ":{" +:+ quoted "message" +:+ ":" +:+ quoted "m"
  +:+ "," +:+ quoted "code" +:+ ":" +:+ quoted "x" +:+ "}}".
Definition on_200_m_x : Platform := platform 200 error_m_x.

(** A target with something in it. *)
Definition a_target : errorStructT :=
  {| ErrorData := {| Message := "before"; Code := 1 |} |}.

Definition a_client : Client :=
  {| client := {| Timeout := TIMEOUT |}; token := "secret";
     baseURL := "https://ingest.loadimpact.com/v1"; version := "0.17.0" |}.

Definition a_request : Request :=
  {| Method := "POST"; URL := "https://ingest.loadimpact.com/v1/tests";
     ReqHeader := ∅; ReqBody := None |}.

Definition on_500_m_x : Platform := platform 500 error_m_x.

(** A request on which the caller has set a content type, in lower case. *)
Definition a_request_xml : Request :=
  set_header a_request "content-type" "application/xml".

(** Another client. *)
Definition b_client : Client :=
  {| client := {| Timeout := TIMEOUT |}; token := "other";
     baseURL := "https://example.test/v1"; version := "0.18.0" |}.

(** A call of [Do] on the platform [P] with the sample client and
    request and a target of the API's error shape. *)
Definition call (P : Platform) (v : option errorStructT) : IO (Outcome errorStructT) :=
  @Do P errorStructT (@errorStruct_Unmarshaler P) a_client a_request v.

(** Go values to send: a boolean, a nil pointer, and a channel, which
    encoding/json refuses. *)
Inductive GoData : Type :=
  | GoBool (b : bool)
  | GoNilPtr
  | GoChan.

#[global] Instance GoData_Marshaler : Marshaler GoData := {
  json_Marshal d :=
    match d with
    | GoBool true => inl "true"
    | GoBool false => inl "false"
    | GoNilPtr => inl "null"
    | GoChan => inr (json_MarshalError "json: unsupported type: chan int")
    end
}.

End Sample.

(** * Properties *)

(** ** Construction *)

Section Construction.

Context `{P : Platform}.

Lemma eqb_empty_false (s : string) : s ≠ "" -> String.eqb s "" = false.
Proof. intros Hs. by apply String.eqb_neq. Qed.

(** C5. The host of a new client: a non-empty K6CLOUD_HOST wins over the
    host argument; with that variable unset or empty the argument is used,
    and with the argument empty as well the host is
    https://ingest.loadimpact.com.  The base URL is that host followed by
    /v1; the token and the version are stored as given. *)
Theorem NewClient_baseURL (token_ host version_ : string) :
  let hostEnv := os_Getenv "K6CLOUD_HOST" in
  let c := NewClient token_ host version_ in
  (hostEnv ≠ "" -> baseURL c = hostEnv +:+ "/v1") /\
  (hostEnv = "" -> host ≠ "" -> baseURL c = host +:+ "/v1") /\
  (hostEnv = "" -> host = "" -> baseURL c = "https://ingest.loadimpact.com/v1") /\
  (hostEnv = "https://example.test" -> host = "" -> baseURL c = "https://example.test/v1") /\
  token c = token_ /\ version c = version_ /\ Timeout (client c) = 10 * time_Second.
Proof.
  intros hostEnv c. subst c. unfold NewClient. fold hostEnv.
  clearbody hostEnv. simpl.
  repeat split.
  - intros Hne. rewrite (eqb_empty_false _ Hne). simpl.
    by rewrite (eqb_empty_false _ Hne).
  - intros -> Hne. simpl. by rewrite (eqb_empty_false _ Hne).
  - by intros -> ->.
  - by intros -> ->.
Qed.

(** C7. Building a request: without data the request has no body; with
    data the body is the JSON text of the data; if the data cannot be
    marshalled the marshalling error is returned and no request.  Whenever
    the method and the URL are acceptable a request is produced. *)
Theorem NewRequest_body {D} `{Marshaler D}
    (c : Client) (method url : string) (data : option D) :
  (data = None ->
     NewRequest c method url data = http_NewRequest method url None /\
     forall req, NewRequest c method url data = inl req -> ReqBody req = None) /\
  (forall d b, data = Some d -> json_Marshal d = inl b ->
     NewRequest c method url data = http_NewRequest method url (Some b) /\
     forall req, NewRequest c method url data = inl req -> ReqBody req = Some b) /\
  (forall d e, data = Some d -> json_Marshal d = inr e ->
     NewRequest c method url data = inr e) /\
  (validMethod (if String.eqb method "" then "GET" else method) = true ->
   url_Parse url = None ->
   (forall d e, data = Some d -> json_Marshal d ≠ inr e) ->
   exists req, NewRequest c method url data = inl req /\ URL req = url).
Proof.
  assert (Hbody : forall body req,
             http_NewRequest method url body = inl req -> ReqBody req = body).
  { intros body req. unfold http_NewRequest.
    destruct (negb _); [discriminate|].
    destruct (url_Parse url); [discriminate|].
    intros [= <-]. reflexivity. }
  split; [|split; [|split]].
  - intros ->. split; [done|]. intros req Hreq. by apply Hbody in Hreq.
  - intros d b -> Hm. simpl. rewrite Hm. split; [done|].
    intros req Hreq. by apply Hbody in Hreq.
  - intros d e -> Hm. simpl. by rewrite Hm.
  - intros Hmeth Hurl Hok.
    assert (Hnew : forall body, exists req,
               http_NewRequest method url body = inl req /\ URL req = url).
    { intros body. unfold http_NewRequest. rewrite Hmeth, Hurl. simpl. eauto. }
    destruct data as [d|]; simpl; [|apply Hnew].
    destruct (json_Marshal d) as [b|e] eqn:Hm; [apply Hnew|].
    by destruct (Hok d e).
Qed.

End Construction.

(** ** Execution *)

Ltac io_unfold :=
  unfold defer, close_body, Decoder_Decode, emit, value, trace,
    mbind, mret, IO_bind, IO_ret in *.

Ltac io_simpl := io_unfold; simpl in *.

(** Membership in a trace that is written out: one case per event. *)
Ltac in_trace Hin :=
  repeat (apply elem_of_cons in Hin as [Hin|Hin]; [try discriminate Hin|]);
  try (by apply elem_of_nil in Hin).

Section Execution.

Context `{P : Platform}.

(** *** Classification *)

Lemma checkResponse_2xx (r : Response) :
  200 <= StatusCode r <= 299 -> checkResponse r = (None, []).
Proof.
  intros [Hlo Hhi]. unfold checkResponse.
  apply Z.leb_le in Hlo. apply Z.leb_le in Hhi.
  by rewrite Hlo, Hhi.
Qed.

Lemma not_2xx (c : Z) : ~ 200 <= c <= 299 -> (200 <=? c) && (c <=? 299) = false.
Proof.
  intros Hn. apply andb_false_iff.
  destruct (Z.leb_spec 200 c); [|by left].
  destruct (Z.leb_spec c 299); [lia|by right].
Qed.

Lemma checkResponse_401 (r : Response) :
  StatusCode r = 401 -> checkResponse r = (Some ErrNotAuthenticated, []).
Proof. intros Hc. unfold checkResponse. by rewrite Hc. Qed.

Lemma checkResponse_403 (r : Response) :
  StatusCode r = 403 -> checkResponse r = (Some ErrNotAuthorized, []).
Proof. intros Hc. unfold checkResponse. by rewrite Hc. Qed.

(** Any other status: the body is decoded as an API error. *)
Lemma checkResponse_other (r : Response) :
  ~ 200 <= StatusCode r <= 299 -> StatusCode r ≠ 401 -> StatusCode r ≠ 403 ->
  checkResponse r =
    (match value (Decoder_Decode (Body r) IntoErrorStruct zeroErrorStruct) with
     | (_, Some e) => Some (withStack (Lib e) "Non-standard API error response")
     | (es, None) => Some (ErrorResponse r (Message (ErrorData es)) (Code (ErrorData es)))
     end,
     [EvDecode (Body r) IntoErrorStruct]).
Proof.
  intros H2 H401 H403. unfold checkResponse.
  rewrite (not_2xx _ H2).
  apply Z.eqb_neq in H401. apply Z.eqb_neq in H403. rewrite H401, H403.
  io_simpl. fold zeroErrorStruct.
  destruct (Decoder_readValue (Body r)) as [e|j]; simpl; [done|].
  by destruct (store_struct _ _ j zeroErrorStruct) as [es [e|]].
Qed.

(** The classification fails exactly outside 2xx, reads the body at most
    once and only into its own struct. *)
Lemma checkResponse_shape (r : Response) :
  (value (checkResponse r) = None <-> 200 <= StatusCode r <= 299) /\
  (trace (checkResponse r) = [] \/
   trace (checkResponse r) = [EvDecode (Body r) IntoErrorStruct]).
Proof.
  destruct (decide (200 <= StatusCode r <= 299)) as [H2|H2].
  { rewrite (checkResponse_2xx r H2). simpl. tauto. }
  destruct (decide (StatusCode r = 401)) as [H401|H401].
  { rewrite (checkResponse_401 r H401). simpl. split; [|tauto]. split; [done|lia]. }
  destruct (decide (StatusCode r = 403)) as [H403|H403].
  { rewrite (checkResponse_403 r H403). simpl. split; [|tauto]. split; [done|lia]. }
  rewrite (checkResponse_other r H2 H401 H403). unfold value, trace. simpl.
  split; [|tauto]. split; [|tauto].
  by destruct (fst _) as [es [e|]].
Qed.

(** *** The three ways through [Do] *)

Lemma Do_transport_error {T} `{Unmarshaler T}
    (c : Client) (req : Request) (v : option T) (e : LibError) :
  http_Client_Do (client c) (stamped c req) = inr e ->
  Do c req v = (mkOutcome (Some (Lib e)) (stamped c req) v, [EvSend (stamped c req)]).
Proof.
  intros Hsend. unfold Do. fold (stamped c req). rewrite Hsend. by io_simpl.
Qed.

Lemma Do_classified {T} `{Unmarshaler T}
    (c : Client) (req : Request) (v : option T) (r : Response) (e : error) :
  http_Client_Do (client c) (stamped c req) = inl r ->
  value (checkResponse r) = Some e ->
  Do c req v =
    (mkOutcome (Some e) (stamped c req) v,
     EvSend (stamped c req) :: trace (checkResponse r) ++ trace (close_body r)).
Proof.
  intros Hsend He. unfold Do. fold (stamped c req). rewrite Hsend.
  destruct (checkResponse r) as [err t]. io_simpl. subst err.
  destruct (Body_Close (Body r)); simpl; by rewrite ?app_nil_r.
Qed.

Lemma Do_success_nil {T} `{Unmarshaler T}
    (c : Client) (req : Request) (r : Response) :
  http_Client_Do (client c) (stamped c req) = inl r ->
  value (checkResponse r) = None ->
  Do c req (@None T) =
    (mkOutcome None (stamped c req) None,
     EvSend (stamped c req) :: trace (checkResponse r) ++ trace (close_body r)).
Proof.
  intros Hsend He. unfold Do. fold (stamped c req). rewrite Hsend.
  destruct (checkResponse r) as [err t]. io_simpl. subst err.
  destruct (Body_Close (Body r)); simpl; by rewrite ?app_nil_r.
Qed.

Lemma Do_success_decode {T} `{Unmarshaler T}
    (c : Client) (req : Request) (t : T) (r : Response) :
  http_Client_Do (client c) (stamped c req) = inl r ->
  value (checkResponse r) = None ->
  Do c req (Some t) =
    (let '(t', err) := value (Decoder_Decode (Body r) IntoOut t) in
     mkOutcome (option_map Lib (if is_io_EOF err then None else err))
       (stamped c req) (Some t'),
     EvSend (stamped c req) :: trace (checkResponse r)
       ++ EvDecode (Body r) IntoOut :: trace (close_body r)).
Proof.
  intros Hsend He. unfold Do. fold (stamped c req). rewrite Hsend.
  destruct (checkResponse r) as [err tr]. io_simpl. subst err.
  destruct (Decoder_readValue (Body r)) as [e|j]; simpl.
  - destruct (Body_Close (Body r)); simpl; by rewrite <- ?app_assoc, ?app_nil_r.
  - destruct (unmarshal j t) as [t' e]. simpl.
    destruct (Body_Close (Body r)); simpl; by rewrite <- ?app_assoc, ?app_nil_r.
Qed.

Lemma close_body_trace (r : Response) :
  trace (close_body r) =
    EvClose (Body r) ::
      match Body_Close (Body r) with
      | Some e => [EvLog (Lib e)]
      | None => []
      end.
Proof. io_simpl. by destruct (Body_Close (Body r)). Qed.

End Execution.

(** ** Storing an API error *)

Section Storing.

Context `{P : Platform}.

Lemma OverflowInt_small (n : Z) :
  32 <= IntSize -> - 2 ^ 31 <= n < 2 ^ 31 -> OverflowInt n = false.
Proof.
  intros Hsize Hn. unfold OverflowInt.
  assert (2 ^ 31 <= 2 ^ (IntSize - 1)) by (apply Z.pow_le_mono_r; lia).
  apply negb_false_iff, andb_true_iff. split; apply Z.leb_le; lia.
Qed.

(** An invariant of the struct that every member keeps is kept by the
    whole value. *)
Lemma store_struct_invariant {S} (Inv : S -> Prop) (type : string)
    (member : string -> JSON -> S -> S * option LibError) (j : JSON) (old : S) :
  Inv old ->
  (forall members k v s, j = JObject members -> In (k, v) members ->
     Inv s -> Inv (fst (member k v s))) ->
  Inv (fst (store_struct type member j old)).
Proof.
  intros Hold Hmem. destruct j as [| | | | |members]; simpl; try done.
  specialize (Hmem members).
  assert (Hin : forall k v s, In (k, v) members -> Inv s -> Inv (fst (member k v s)))
    by eauto.
  clear Hmem. generalize (@None LibError) as saved. revert old Hold.
  induction members as [|[k v] members IH]; intros old Hold saved; simpl; [done|].
  destruct (member k v old) as [s' err] eqn:Hs'.
  apply IH.
  - intros k' v' s Hk. apply Hin. by right.
  - change s' with (fst (s', err)). rewrite <- Hs'. apply Hin; [by left|done].
Qed.

(** Members that select no field of the error object leave it as it is. *)
Lemma store_errorData_member_message (k : string) (v : JSON) (d : errorDataT) :
  selects ["message"; "code"] "message" k = false ->
  Message (fst (store_errorData_member k v d)) = Message d.
Proof.
  unfold selects, store_errorData_member.
  destruct (find_field _ k) as [f|]; [|done].
  intros ->. destruct (String.eqb f "code"); [|done].
  by destruct (store_int v (Code d)).
Qed.

Lemma store_errorData_member_code (k : string) (v : JSON) (d : errorDataT) :
  selects ["message"; "code"] "code" k = false ->
  Code (fst (store_errorData_member k v d)) = Code d.
Proof.
  unfold selects, store_errorData_member.
  destruct (find_field _ k) as [f|]; [|done].
  intros ->. destruct (String.eqb f "message"); [|done].
  by destruct (store_string v (Message d)).
Qed.

(** A field without a member in the payload keeps the value the struct
    had. *)
Lemma unmarshal_absent (name : string) (proj : errorDataT -> Prop) (j : JSON)
    (s : errorStructT) :
  has_member name j = false ->
  (forall k v d, selects ["message"; "code"] name k = false ->
     proj d -> proj (fst (store_errorData_member k v d))) ->
  proj (ErrorData s) -> proj (ErrorData (fst (unmarshal j s))).
Proof.
  intros Habs Hkeep Hs. simpl.
  apply (store_struct_invariant (fun s => proj (ErrorData s))); [done|].
  intros members k v s' -> Hin Hs'.
  unfold store_errorStruct_member.
  simpl in Habs.
  destruct (find_field ["error"] k) as [f|] eqn:Hf; [|done].
  destruct (store_struct _ _ v (ErrorData s')) as [d err] eqn:Hd. simpl.
  change d with (fst (d, err)). rewrite <- Hd.
  apply store_struct_invariant; [done|].
  intros members' k' v' d' -> Hin' Hd'.
  apply Hkeep; [|done].
  destruct (selects _ name k') eqn:Hsel; [|done].
  apply not_true_iff_false in Habs. destruct Habs.
  apply existsb_exists. exists (k, JObject members'). split; [done|].
  simpl. rewrite Hf. apply existsb_exists. by exists (k', v').
Qed.

End Storing.

(** ** The claims about [Do] and [checkResponse] *)

Section Claims.

Context `{P : Platform}.

Lemma CanonicalMIMEHeaderKey_mandated :
  CanonicalMIMEHeaderKey "Content-Type" = "Content-Type" /\
  CanonicalMIMEHeaderKey "Authorization" = "Authorization" /\
  CanonicalMIMEHeaderKey "User-Agent" = "User-Agent".
Proof. by vm_compute. Qed.

Lemma decode_event_not_in (b : ReadCloser) (into : Target) (t : list Event) :
  Forall (fun ev => is_decode ev = false) t -> EvDecode b into ∉ t.
Proof.
  intros Hall Hin. rewrite Forall_forall in Hall.
  by specialize (Hall _ Hin).
Qed.

Lemma close_body_no_decode (r : Response) :
  Forall (fun ev => is_decode ev = false) (trace (close_body r)).
Proof.
  rewrite close_body_trace. destruct (Body_Close (Body r)); repeat constructor.
Qed.

(** C1. A response with a status from 200 to 299 is classified as a
    success whatever its body holds, without the body being read; and a
    call with a nil [v] then returns no error and decodes nothing. *)
Theorem success_2xx {T} `{Unmarshaler T}
    (c : Client) (req : Request) (r : Response) :
  http_Client_Do (client c) (stamped c req) = inl r ->
  200 <= StatusCode r <= 299 ->
  checkResponse r = (None, []) /\
  err_of (value (Do c req (@None T))) = None /\
  out_of (value (Do c req (@None T))) = None /\
  forall b into, EvDecode b into ∉ trace (Do c req (@None T)).
Proof.
  intros Hsend H2. pose proof (checkResponse_2xx r H2) as Hcheck.
  split; [done|].
  rewrite (Do_success_nil c req r Hsend) by by rewrite Hcheck.
  rewrite Hcheck. simpl. repeat split.
  intros b into. apply decode_event_not_in.
  constructor; [done|]. apply close_body_no_decode.
Qed.

(** C2. Status 401 fails with [ErrNotAuthenticated] and status 403 with
    [ErrNotAuthorized], whatever the body holds: it is not read. *)
Theorem sentinel_errors {T} `{Unmarshaler T}
    (c : Client) (req : Request) (v : option T) (r : Response) :
  http_Client_Do (client c) (stamped c req) = inl r ->
  (StatusCode r = 401 ->
     checkResponse r = (Some ErrNotAuthenticated, []) /\
     err_of (value (Do c req v)) = Some ErrNotAuthenticated) /\
  (StatusCode r = 403 ->
     checkResponse r = (Some ErrNotAuthorized, []) /\
     err_of (value (Do c req v)) = Some ErrNotAuthorized).
Proof.
  intros Hsend. split; intros Hc.
  - pose proof (checkResponse_401 r Hc) as Hcheck. split; [done|].
    rewrite (Do_classified c req v r ErrNotAuthenticated Hsend); [done|].
    by rewrite Hcheck.
  - pose proof (checkResponse_403 r Hc) as Hcheck. split; [done|].
    rewrite (Do_classified c req v r ErrNotAuthorized Hsend); [done|].
    by rewrite Hcheck.
Qed.

(** C3. Any other status with a body that decodes: the call fails with an
    [ErrorResponse] that holds the response itself and the message and
    code of the payload, "m" and 7 for
    [{"error":{"message":"m","code":7}}]; a field that has no member in
    the payload is the empty string, respectively zero. *)
Theorem structured_error {T} `{Unmarshaler T}
    (c : Client) (req : Request) (v : option T) (r : Response) :
  http_Client_Do (client c) (stamped c req) = inl r ->
  ~ 200 <= StatusCode r <= 299 -> StatusCode r ≠ 401 -> StatusCode r ≠ 403 ->
  32 <= IntSize ->
  (Decoder_readValue (Body r) = inr Sample.payload_m_7 ->
     value (checkResponse r) = Some (ErrorResponse r "m" 7) /\
     err_of (value (Do c req v)) = Some (ErrorResponse r "m" 7)) /\
  (forall j es,
     Decoder_readValue (Body r) = inr j ->
     unmarshal j zeroErrorStruct = (es, None) ->
     let e := ErrorResponse r (Message (ErrorData es)) (Code (ErrorData es)) in
     value (checkResponse r) = Some e /\
     err_of (value (Do c req v)) = Some e /\
     (has_member "message" j = false -> Message (ErrorData es) = "") /\
     (has_member "code" j = false -> Code (ErrorData es) = 0)).
Proof.
  intros Hsend H2 H401 H403 Hsize.
  assert (Hgen : forall j es,
             Decoder_readValue (Body r) = inr j ->
             unmarshal j zeroErrorStruct = (es, None) ->
             value (checkResponse r) =
               Some (ErrorResponse r (Message (ErrorData es)) (Code (ErrorData es)))).
  { intros j es Hread Hstore. rewrite (checkResponse_other r H2 H401 H403).
    io_simpl. rewrite Hread. simpl. by rewrite Hstore. }
  assert (Hdo : forall e, value (checkResponse r) = Some e ->
                          err_of (value (Do c req v)) = Some e).
  { intros e He. by rewrite (Do_classified c req v r e Hsend He). }
  split.
  - intros Hread.
    assert (Hstore : unmarshal Sample.payload_m_7 zeroErrorStruct =
                       ({| ErrorData := {| Message := "m"; Code := 7 |} |}, None)).
    { simpl. unfold store_errorStruct_member. simpl.
      unfold store_errorData_member. simpl.
      change (strconv_ParseInt "7") with (Some 7).
      rewrite OverflowInt_small by (done || lia). done. }
    pose proof (Hgen _ _ Hread Hstore) as He. simpl in He. auto.
  - intros j es Hread Hstore e. subst e.
    pose proof (Hgen _ _ Hread Hstore) as He.
    split; [done|]. split; [auto|].
    replace es with (fst (unmarshal j zeroErrorStruct)) by by rewrite Hstore.
    split; intros Habs.
    + apply (unmarshal_absent "message" (fun d => Message d = "")); [done| |done].
      intros k v' d Hsel <-. by apply store_errorData_member_message.
    + apply (unmarshal_absent "code" (fun d => Code d = 0)); [done| |done].
      intros k v' d Hsel <-. by apply store_errorData_member_code.
Qed.

(** C4. Any other status with a body that does not decode: the call fails
    with the decode error wrapped as a non-standard API error response,
    which is no [ErrorResponse] and has the decode error as its cause. *)
Theorem nonstandard_error {T} `{Unmarshaler T}
    (c : Client) (req : Request) (v : option T) (r : Response) (e : LibError) :
  http_Client_Do (client c) (stamped c req) = inl r ->
  ~ 200 <= StatusCode r <= 299 -> StatusCode r ≠ 401 -> StatusCode r ≠ 403 ->
  snd (value (Decoder_Decode (Body r) IntoErrorStruct zeroErrorStruct)) = Some e ->
  let w := withStack (Lib e) "Non-standard API error response" in
  value (checkResponse r) = Some w /\
  err_of (value (Do c req v)) = Some w /\
  errors_Cause w = Lib e /\
  (forall r' m code, w ≠ ErrorResponse r' m code).
Proof.
  intros Hsend H2 H401 H403 Hdec w.
  assert (Hcheck : value (checkResponse r) = Some w).
  { rewrite (checkResponse_other r H2 H401 H403). unfold value at 1. simpl.
    destruct (value (Decoder_Decode _ _ _)) as [es err]. simpl in Hdec. by subst err. }
  split; [done|]. split; [|done].
  by rewrite (Do_classified c req v r w Hsend Hcheck).
Qed.

(** A stream without a value makes the decoding fail with the reader's
    error. *)
Lemma Decode_read_error {T} `{Unmarshaler T}
    (b : ReadCloser) (into : Target) (t : T) (e : LibError) :
  Decoder_readValue b = inl e ->
  value (Decoder_Decode b into t) = (t, Some e).
Proof. intros Hread. io_simpl. by rewrite Hread. Qed.

(** [Do] sends one request and sends it first. *)
Lemma Do_trace_send {T} `{Unmarshaler T} (c : Client) (req : Request) (v : option T) :
  exists rest,
    trace (Do c req v) = EvSend (stamped c req) :: rest /\
    Forall (fun ev => is_send ev = false) rest.
Proof.
  assert (Hclose : forall r, Forall (fun ev => is_send ev = false) (trace (close_body r))).
  { intros r. rewrite close_body_trace. destruct (Body_Close (Body r)); repeat constructor. }
  assert (Hcheck : forall r, Forall (fun ev => is_send ev = false) (trace (checkResponse r))).
  { intros r. destruct (checkResponse_shape r) as [_ [-> | ->]]; repeat constructor. }
  destruct (http_Client_Do (client c) (stamped c req)) as [r|e] eqn:Hsend.
  - destruct (value (checkResponse r)) as [e|] eqn:He.
    + rewrite (Do_classified c req v r e Hsend He). eexists. split; [done|].
      apply Forall_app. auto.
    + destruct v as [t|].
      * rewrite (Do_success_decode c req t r Hsend He). eexists. split; [done|].
        apply Forall_app. split; [auto|]. constructor; [done|auto].
      * rewrite (Do_success_nil c req r Hsend He). eexists. split; [done|].
        apply Forall_app. auto.
  - rewrite (Do_transport_error c req v e Hsend). eexists. split; [done|]. constructor.
Qed.

(** C6. The request that goes out, and that the caller has afterwards,
    carries Content-Type: application/json, Authorization: Token and the
    client's token, User-Agent: k6cloud/ and the client's version, each as
    its only value whatever the caller had set; no other header and
    nothing else of the request is changed; the headers are set before the
    one request of the call is sent. *)
Theorem mandated_headers {T} `{Unmarshaler T}
    (c : Client) (req : Request) (v : option T) :
  let sent := stamped c req in
  (exists rest, trace (Do c req v) = EvSend sent :: rest /\
                Forall (fun ev => is_send ev = false) rest) /\
  req_of (value (Do c req v)) = sent /\
  ReqHeader sent !! "Content-Type" = Some ["application/json"] /\
  ReqHeader sent !! "Authorization" = Some ["Token " +:+ token c] /\
  ReqHeader sent !! "User-Agent" = Some ["k6cloud/" +:+ version c] /\
  (forall k, k ≠ "Content-Type" -> k ≠ "Authorization" -> k ≠ "User-Agent" ->
     ReqHeader sent !! k = ReqHeader req !! k) /\
  Method sent = Method req /\ URL sent = URL req /\ ReqBody sent = ReqBody req.
Proof.
  intros sent. split; [apply Do_trace_send|]. split.
  { unfold Do. fold (stamped c req). fold sent.
    destruct (http_Client_Do (client c) sent) as [r|e]; [|by io_simpl].
    destruct (checkResponse r) as [[e|] t]; io_simpl.
    - by destruct (Body_Close (Body r)).
    - destruct v as [x|]; simpl.
      + destruct (Decoder_readValue (Body r)) as [e|j]; simpl.
        * by destruct (Body_Close (Body r)).
        * destruct (unmarshal j x). by destruct (Body_Close (Body r)).
      + by destruct (Body_Close (Body r)). }
  destruct CanonicalMIMEHeaderKey_mandated as (Hct & Hauth & Hua).
  subst sent. unfold stamped, set_header, Header_Set. simpl.
  rewrite Hct, Hauth, Hua.
  split; [|split; [|split; [|split]]].
  - rewrite 2!lookup_insert_ne by done. apply lookup_insert_eq.
  - rewrite lookup_insert_ne by done. apply lookup_insert_eq.
  - apply lookup_insert_eq.
  - intros k H1 H2 H3. by rewrite 3!lookup_insert_ne.
  - done.
Qed.

(** C8. After a 2xx status with a non-nil [v]: a body that is at its end
    before any value is no error and leaves the target as it was; every
    other failure of the decoding, of the reader or of the storing, is
    returned; a decoding without failure returns no error. *)
Theorem success_decoding {T} `{Unmarshaler T}
    (c : Client) (req : Request) (t : T) (r : Response) :
  http_Client_Do (client c) (stamped c req) = inl r ->
  200 <= StatusCode r <= 299 ->
  let o := value (Do c req (Some t)) in
  (Decoder_readValue (Body r) = inl io_EOF ->
     err_of o = None /\ out_of o = Some t) /\
  (forall e, Decoder_readValue (Body r) = inl e -> e ≠ io_EOF ->
     err_of o = Some (Lib e) /\ out_of o = Some t) /\
  (forall j t' e, Decoder_readValue (Body r) = inr j ->
     unmarshal j t = (t', Some e) -> e ≠ io_EOF ->
     err_of o = Some (Lib e) /\ out_of o = Some t') /\
  (forall j t', Decoder_readValue (Body r) = inr j ->
     unmarshal j t = (t', None) ->
     err_of o = None /\ out_of o = Some t').
Proof.
  intros Hsend H2 o. subst o.
  rewrite (Do_success_decode c req t r Hsend)
    by by rewrite (checkResponse_2xx r H2).
  unfold value at 1. unfold fst.
  split; [|split; [|split]].
  - intros Hread. by rewrite (Decode_read_error _ _ _ _ Hread).
  - intros e Hread Hne. rewrite (Decode_read_error _ _ _ _ Hread). by destruct e.
  - intros j t' e Hread Hstore Hne. io_simpl. rewrite Hread. simpl.
    rewrite Hstore. by destruct e.
  - intros j t' Hread Hstore. io_simpl. rewrite Hread. simpl. by rewrite Hstore.
Qed.

Lemma closes_app (t1 t2 : list Event) : closes (t1 ++ t2) = (closes t1 + closes t2)%nat.
Proof. unfold closes. by rewrite List.filter_app, length_app. Qed.

Lemma closes_decodes (t : list Event) :
  Forall (fun ev => is_decode ev = true) t -> closes t = 0%nat.
Proof.
  induction 1 as [|ev t Hev _ IH]; [done|].
  unfold closes in *. simpl. by destruct ev.
Qed.

Lemma closes_close_body (r : Response) : closes (trace (close_body r)) = 1%nat.
Proof. rewrite close_body_trace. by destruct (Body_Close (Body r)). Qed.

(** What [Do] does between the sending and the closing: it decodes, at
    most twice over all paths and in fact at most once. *)
Lemma Do_trace_response {T} `{Unmarshaler T}
    (c : Client) (req : Request) (v : option T) (r : Response) :
  http_Client_Do (client c) (stamped c req) = inl r ->
  exists used,
    trace (Do c req v) = EvSend (stamped c req) :: used ++ trace (close_body r) /\
    Forall (fun ev => is_decode ev = true) used /\
    (length used <= 1)%nat.
Proof.
  intros Hsend.
  destruct (value (checkResponse r)) as [e|] eqn:He.
  - rewrite (Do_classified c req v r e Hsend He). eexists. split; [done|].
    destruct (checkResponse_shape r) as [_ [-> | ->]]; simpl; split; repeat constructor.
  - assert (Hnil : trace (checkResponse r) = []).
    { apply checkResponse_shape in He. by rewrite (checkResponse_2xx r He). }
    destruct v as [t|].
    + rewrite (Do_success_decode c req t r Hsend He), Hnil.
      exists [EvDecode (Body r) IntoOut]. split; [done|]. split; repeat constructor.
    + rewrite (Do_success_nil c req r Hsend He), Hnil.
      exists []. split; [done|]. split; repeat constructor.
Qed.

(** C9. Whenever a response was received its body is closed exactly once,
    after everything that reads it and as the last thing but the logging
    of a failed close; what the call returns and leaves in [v] is the same
    however the close ends. *)
Theorem body_closed_once {T} `{Unmarshaler T}
    (c : Client) (req : Request) (v : option T) (r : Response) :
  http_Client_Do (client c) (stamped c req) = inl r ->
  closes (trace (Do c req v)) = 1%nat /\
  (exists used,
     trace (Do c req v) =
       EvSend (stamped c req) :: used ++ EvClose (Body r) ::
         match Body_Close (Body r) with
         | Some e => [EvLog (Lib e)]
         | None => []
         end /\
     Forall (fun ev => is_decode ev = true) used) /\
  (forall close,
     value (@Do (with_Close P close) T _ c req v) = value (Do c req v)).
Proof.
  intros Hsend.
  destruct (Do_trace_response c req v r Hsend) as (used & Htrace & Hused & _).
  split; [|split].
  - rewrite Htrace. change (EvSend ?x :: ?t) with ([EvSend x] ++ t).
    rewrite !closes_app, closes_close_body, (closes_decodes used Hused). done.
  - exists used. by rewrite <- close_body_trace.
  - intros close. unfold Do. fold (stamped c req). simpl.
    change (@http_Client_Do (with_Close P close)) with (@http_Client_Do P).
    rewrite Hsend.
    change (@checkResponse (with_Close P close) r) with (@checkResponse P r).
    destruct (checkResponse r) as [[e|] t]; io_simpl.
    + by destruct (close (Body r)), (Body_Close (Body r)).
    + destruct v as [x|]; simpl.
      * destruct (Decoder_readValue (Body r)) as [e|j]; simpl.
        -- by destruct (close (Body r)), (Body_Close (Body r)).
        -- destruct (unmarshal j x).
           by destruct (close (Body r)), (Body_Close (Body r)).
      * by destruct (close (Body r)), (Body_Close (Body r)).
Qed.

(** What [checkResponse] can fail with. *)
Lemma checkResponse_errors (r : Response) (e : error) :
  value (checkResponse r) = Some e ->
  e = ErrNotAuthenticated \/ e = ErrNotAuthorized \/
  (exists m code, e = ErrorResponse r m code) \/
  (exists cause, e = withStack (Lib cause) "Non-standard API error response").
Proof.
  destruct (decide (200 <= StatusCode r <= 299)) as [H2|H2].
  { by rewrite (checkResponse_2xx r H2). }
  destruct (decide (StatusCode r = 401)) as [H401|H401].
  { rewrite (checkResponse_401 r H401). intros [= <-]. auto. }
  destruct (decide (StatusCode r = 403)) as [H403|H403].
  { rewrite (checkResponse_403 r H403). intros [= <-]. auto. }
  rewrite (checkResponse_other r H2 H401 H403). unfold value at 1. simpl.
  destruct (value _) as [es [err|]]; intros [= <-]; eauto 7.
Qed.

(** C10. A call that fails before or in the classification, with a
    transport error, a sentinel, an [ErrorResponse] or a wrapped
    non-standard error, leaves what [v] points to as it was and never
    decodes into it; a decoding into [v] happens only after a
    classification that succeeded. *)
Theorem error_paths_leave_out {T} `{Unmarshaler T}
    (c : Client) (req : Request) (v : option T) :
  let o := Do c req v in
  (forall e, http_Client_Do (client c) (stamped c req) = inr e ->
     err_of (value o) = Some (Lib e) /\ out_of (value o) = v /\
     trace o = [EvSend (stamped c req)]) /\
  (forall r e, http_Client_Do (client c) (stamped c req) = inl r ->
     value (checkResponse r) = Some e ->
     err_of (value o) = Some e /\ out_of (value o) = v /\
     (forall b, EvDecode b IntoOut ∉ trace o) /\
     (e = ErrNotAuthenticated \/ e = ErrNotAuthorized \/
      (exists m code, e = ErrorResponse r m code) \/
      (exists cause, e = withStack (Lib cause) "Non-standard API error response"))) /\
  (forall e, err_of (value o) = Some e -> (forall l, e ≠ Lib l) ->
     out_of (value o) = v /\ forall b, EvDecode b IntoOut ∉ trace o) /\
  (forall b, EvDecode b IntoOut ∈ trace o ->
     exists r, http_Client_Do (client c) (stamped c req) = inl r /\
               checkResponse r = (None, []) /\ b = Body r /\ is_Some v).
Proof.
  intros o.
  assert (Hclass : forall r e,
             http_Client_Do (client c) (stamped c req) = inl r ->
             value (checkResponse r) = Some e ->
             err_of (value o) = Some e /\ out_of (value o) = v /\
             forall b, EvDecode b IntoOut ∉ trace o).
  { intros r e Hsend He. subst o. rewrite (Do_classified c req v r e Hsend He).
    repeat split. intros b Hin. unfold trace at 1 in Hin. simpl in Hin.
    rewrite close_body_trace in Hin.
    destruct (checkResponse_shape r) as [_ [Ht | Ht]]; rewrite Ht in Hin;
      destruct (Body_Close (Body r)); simpl in Hin; in_trace Hin. }
  assert (Hnone : forall r,
             http_Client_Do (client c) (stamped c req) = inl r ->
             value (checkResponse r) = None -> checkResponse r = (None, [])).
  { intros r _ He. apply checkResponse_shape in He. by apply checkResponse_2xx. }
  split; [|split; [|split]].
  - intros e Hsend. subst o. by rewrite (Do_transport_error c req v e Hsend).
  - intros r e Hsend He. destruct (Hclass r e Hsend He) as (? & ? & ?).
    repeat split; try done. by apply checkResponse_errors.
  - intros e He Hlib.
    destruct (http_Client_Do (client c) (stamped c req)) as [r|l] eqn:Hsend.
    + destruct (value (checkResponse r)) as [e'|] eqn:He'.
      * destruct (Hclass r e' eq_refl He') as (? & ? & ?). by split.
      * exfalso. subst o. destruct v as [t|].
        -- rewrite (Do_success_decode c req t r Hsend He') in He.
           unfold value at 1 in He. simpl in He.
           destruct (value (Decoder_Decode _ _ _)) as [t' [l|]]; simpl in He.
           ++ destruct l; simpl in He; try done;
                injection He as <-; by eapply Hlib.
           ++ done.
        -- by rewrite (Do_success_nil c req r Hsend He') in He.
    + subst o. rewrite (Do_transport_error c req v l Hsend) in He.
      injection He as <-. by destruct (Hlib l).
  - intros b Hin.
    destruct (http_Client_Do (client c) (stamped c req)) as [r|l] eqn:Hsend.
    + destruct (value (checkResponse r)) as [e'|] eqn:He'.
      * destruct (Hclass r e' eq_refl He') as (_ & _ & Hno). by destruct (Hno b).
      * exists r. pose proof (Hnone r eq_refl He') as Hcheck.
        subst o. destruct v as [t|].
        -- rewrite (Do_success_decode c req t r Hsend He'), Hcheck,
             close_body_trace in Hin.
           unfold trace in Hin. simpl in Hin.
           repeat split; [done| |by eexists].
           destruct (Body_Close (Body r)); simpl in Hin; in_trace Hin; congruence.
        -- rewrite (Do_success_nil c req r Hsend He'), Hcheck,
             close_body_trace in Hin.
           unfold trace in Hin. simpl in Hin.
           destruct (Body_Close (Body r)); simpl in Hin; in_trace Hin.
    + subst o. rewrite (Do_transport_error c req v l Hsend) in Hin.
      unfold trace in Hin. simpl in Hin. in_trace Hin.
Qed.

End Claims.

(** ** The claims on the sample platforms *)

Section On_204.

Local Existing Instance Sample.on_204.

Lemma success_2xx_witness :
  checkResponse (Sample.response 204 "<html>") = (None, []) /\
  err_of (value (Do Sample.a_client Sample.a_request (@None errorStructT))) = None /\
  trace (Do Sample.a_client Sample.a_request (@None errorStructT))
    = [EvSend (stamped Sample.a_client Sample.a_request);
       EvClose (Body (Sample.response 204 "<html>"))].
Proof.
  destruct (success_2xx (T := errorStructT) Sample.a_client Sample.a_request
              (Sample.response 204 "<html>")) as (Hcheck & Herr & _ & _).
  - reflexivity.
  - simpl. lia.
  - split; [exact Hcheck|]. split; [exact Herr|]. reflexivity.
Defined.

End On_204.

Lemma sentinel_errors_witness :
  (@checkResponse Sample.on_401 (Sample.response 401 "<html>")
     = (Some ErrNotAuthenticated, []) /\
   err_of (value (@Do Sample.on_401 errorStructT (@errorStruct_Unmarshaler Sample.on_401)
                    Sample.a_client Sample.a_request (Some Sample.a_target)))
     = Some ErrNotAuthenticated) /\
  (@checkResponse Sample.on_403 (Sample.response 403 Sample.error_m_7)
     = (Some ErrNotAuthorized, []) /\
   err_of (value (@Do Sample.on_403 errorStructT (@errorStruct_Unmarshaler Sample.on_403)
                    Sample.a_client Sample.a_request (Some Sample.a_target)))
     = Some ErrNotAuthorized).
Proof.
  split.
  - apply (@sentinel_errors Sample.on_401 errorStructT
             (@errorStruct_Unmarshaler Sample.on_401) Sample.a_client
             Sample.a_request (Some Sample.a_target) (Sample.response 401 "<html>"));
      reflexivity.
  - apply (@sentinel_errors Sample.on_403 errorStructT
             (@errorStruct_Unmarshaler Sample.on_403) Sample.a_client
             Sample.a_request (Some Sample.a_target)
             (Sample.response 403 Sample.error_m_7));
      reflexivity.
Defined.

Lemma structured_error_witness :
  (@Decoder_readValue Sample.on_500 (Body (Sample.response 500 Sample.error_m_7))
     = inr Sample.payload_m_7 /\
   value (@checkResponse Sample.on_500 (Sample.response 500 Sample.error_m_7))
     = Some (ErrorResponse (Sample.response 500 Sample.error_m_7) "m" 7) /\
   err_of (value (Sample.call Sample.on_500 (Some Sample.a_target)))
     = Some (ErrorResponse (Sample.response 500 Sample.error_m_7) "m" 7)) /\
  (@Decoder_readValue Sample.on_502 (Body (Sample.response 502 Sample.empty_error))
     = inr (JObject [("error", JObject [])]) /\
   err_of (value (Sample.call Sample.on_502 (Some Sample.a_target)))
     = Some (ErrorResponse (Sample.response 502 Sample.empty_error) "" 0)).
Proof.
  split.
  - assert (Hread : @Decoder_readValue Sample.on_500
                      (Body (Sample.response 500 Sample.error_m_7))
                    = inr Sample.payload_m_7) by (vm_compute; reflexivity).
    destruct (@structured_error Sample.on_500 errorStructT
                (@errorStruct_Unmarshaler Sample.on_500) Sample.a_client
                Sample.a_request (Some Sample.a_target)
                (Sample.response 500 Sample.error_m_7))
      as [Hlit _].
    + reflexivity.
    + simpl. lia.
    + simpl. lia.
    + simpl. lia.
    + simpl. lia.
    + split; [exact Hread|]. exact (Hlit Hread).
  - assert (Hread : @Decoder_readValue Sample.on_502
                      (Body (Sample.response 502 Sample.empty_error))
                    = inr (JObject [("error", JObject [])])) by (vm_compute; reflexivity).
    destruct (@structured_error Sample.on_502 errorStructT
                (@errorStruct_Unmarshaler Sample.on_502) Sample.a_client
                Sample.a_request (Some Sample.a_target)
                (Sample.response 502 Sample.empty_error))
      as [_ Hgen].
    + reflexivity.
    + simpl. lia.
    + simpl. lia.
    + simpl. lia.
    + simpl. lia.
    + destruct (Hgen (JObject [("error", JObject [])]) zeroErrorStruct Hread eq_refl)
        as (_ & Herr & Hmessage & Hcode).
      split; [exact Hread|]. exact Herr.
Defined.

Section On_404.

Local Existing Instance Sample.on_404.

Lemma nonstandard_error_witness :
  let e := json_SyntaxError "invalid character looking for beginning of value" in
  let w := withStack (Lib e) "Non-standard API error response" in
  Decoder_readValue (Body (Sample.response 404 "Not Found")) = inl e /\
  value (checkResponse (Sample.response 404 "Not Found")) = Some w /\
  err_of (value (Do Sample.a_client Sample.a_request (Some Sample.a_target))) = Some w /\
  errors_Cause w = Lib e.
Proof.
  intros e w.
  assert (Hread : Decoder_readValue (Body (Sample.response 404 "Not Found")) = inl e)
    by (vm_compute; reflexivity).
  destruct (nonstandard_error (T := errorStructT) Sample.a_client Sample.a_request
              (Some Sample.a_target) (Sample.response 404 "Not Found") e)
    as (Hcheck & Herr & Hcause & _).
  - reflexivity.
  - simpl. lia.
  - simpl. lia.
  - simpl. lia.
  - by rewrite (Decode_read_error _ _ _ _ Hread).
  - repeat split; assumption.
Defined.

End On_404.

Lemma NewClient_baseURL_witness :
  baseURL (@NewClient Sample.with_host "secret" "" "0.17.0") = "https://example.test/v1" /\
  baseURL (@NewClient Sample.with_host "secret" "http://localhost" "0.17.0")
    = "https://example.test/v1" /\
  baseURL (@NewClient Sample.offline "secret" "http://localhost" "0.17.0")
    = "http://localhost/v1" /\
  baseURL (@NewClient Sample.offline "secret" "" "0.17.0")
    = "https://ingest.loadimpact.com/v1".
Proof.
  split; [|split; [|split]].
  - apply (@NewClient_baseURL Sample.with_host "secret" "" "0.17.0"); reflexivity.
  - apply (proj1 (@NewClient_baseURL Sample.with_host "secret" "http://localhost" "0.17.0")).
    discriminate.
  - apply (@NewClient_baseURL Sample.offline "secret" "http://localhost" "0.17.0");
      [reflexivity | discriminate].
  - apply (@NewClient_baseURL Sample.offline "secret" "" "0.17.0"); reflexivity.
Defined.

Section On_200_m_7.

Local Existing Instance Sample.on_200_m_7.

Lemma mandated_headers_witness :
  ReqHeader (stamped Sample.a_client Sample.a_request) !! "Authorization"
    = Some ["Token secret"] /\
  ReqHeader (stamped Sample.a_client Sample.a_request) !! "User-Agent"
    = Some ["k6cloud/0.17.0"] /\
  ReqHeader (stamped Sample.a_client Sample.a_request) !! "Accept" = None /\
  req_of (value (Do Sample.a_client Sample.a_request (Some Sample.a_target)))
    = stamped Sample.a_client Sample.a_request.
Proof.
  destruct (mandated_headers (T := errorStructT) Sample.a_client Sample.a_request
              (Some Sample.a_target))
    as (_ & Hreq & _ & Hauth & Hua & Hother & _).
  split; [exact Hauth|]. split; [exact Hua|]. split; [|exact Hreq].
  rewrite Hother by discriminate. reflexivity.
Defined.

Lemma NewRequest_body_witness :
  (exists req, NewRequest Sample.a_client "POST" "https://example.test/v1/tests"
                 (@None Sample.GoData) = inl req /\ ReqBody req = None) /\
  (exists req, NewRequest Sample.a_client "POST" "https://example.test/v1/tests"
                 (Some (Sample.GoBool true)) = inl req /\ ReqBody req = Some "true") /\
  NewRequest Sample.a_client "POST" "https://example.test/v1/tests" (Some Sample.GoChan)
    = inr (json_MarshalError "json: unsupported type: chan int").
Proof.
  split; [|split].
  - destruct (NewRequest_body Sample.a_client "POST" "https://example.test/v1/tests"
                (@None Sample.GoData)) as (Hnone & _ & _ & Hex).
    destruct Hex as (req & Hreq & _); [reflexivity | reflexivity | discriminate |].
    exists req. split; [exact Hreq|]. by apply (Hnone eq_refl).
  - destruct (NewRequest_body Sample.a_client "POST" "https://example.test/v1/tests"
                (Some (Sample.GoBool true))) as (_ & Hdata & _ & Hex).
    destruct Hex as (req & Hreq & _);
      [reflexivity | reflexivity | by intros d e [= <-] |].
    exists req. split; [exact Hreq|].
    by apply (Hdata (Sample.GoBool true) "true" eq_refl eq_refl).
  - destruct (NewRequest_body Sample.a_client "POST" "https://example.test/v1/tests"
                (Some Sample.GoChan)) as (_ & _ & Herr & _).
    by apply (Herr Sample.GoChan).
Defined.

End On_200_m_7.

Lemma success_decoding_witness :
  (err_of (value (Sample.call Sample.on_200_empty (Some Sample.a_target))) = None /\
   out_of (value (Sample.call Sample.on_200_empty (Some Sample.a_target)))
     = Some Sample.a_target) /\
  (err_of (value (Sample.call Sample.on_200_cut (Some Sample.a_target)))
     = Some (Lib io_ErrUnexpectedEOF) /\
   out_of (value (Sample.call Sample.on_200_cut (Some Sample.a_target)))
     = Some Sample.a_target) /\
  (err_of (value (Sample.call Sample.on_200_m_x (Some Sample.a_target)))
     = Some (Lib (json_UnmarshalTypeError "string" "int")) /\
   out_of (value (Sample.call Sample.on_200_m_x (Some Sample.a_target)))
     = Some {| ErrorData := {| Message := "m"; Code := 1 |} |}) /\
  (err_of (value (Sample.call Sample.on_200_m_7 (Some Sample.a_target))) = None /\
   out_of (value (Sample.call Sample.on_200_m_7 (Some Sample.a_target)))
     = Some {| ErrorData := {| Message := "m"; Code := 7 |} |}).
Proof.
  split; [|split; [|split]].
  - apply (@success_decoding Sample.on_200_empty errorStructT
             (@errorStruct_Unmarshaler Sample.on_200_empty) Sample.a_client
             Sample.a_request Sample.a_target (Sample.response 200 ""));
      [reflexivity | simpl; lia | vm_compute; reflexivity].
  - destruct (@success_decoding Sample.on_200_cut errorStructT
                (@errorStruct_Unmarshaler Sample.on_200_cut) Sample.a_client
                Sample.a_request Sample.a_target (Sample.response 200 "{"))
      as (_ & Hfail & _); [reflexivity | simpl; lia |].
    apply Hfail; [vm_compute; reflexivity | discriminate].
  - destruct (@success_decoding Sample.on_200_m_x errorStructT
                (@errorStruct_Unmarshaler Sample.on_200_m_x) Sample.a_client
                Sample.a_request Sample.a_target (Sample.response 200 Sample.error_m_x))
      as (_ & _ & Hstore & _); [reflexivity | simpl; lia |].
    apply (Hstore (JObject [("error",
                     JObject [("message", JString "m"); ("code", JString "x")])]));
      [vm_compute; reflexivity | vm_compute; reflexivity | discriminate].
  - destruct (@success_decoding Sample.on_200_m_7 errorStructT
                (@errorStruct_Unmarshaler Sample.on_200_m_7) Sample.a_client
                Sample.a_request Sample.a_target (Sample.response 200 Sample.error_m_7))
      as (_ & _ & _ & Hok); [reflexivity | simpl; lia |].
    apply (Hok Sample.payload_m_7); vm_compute; reflexivity.
Defined.

Section On_200_badly.

Local Existing Instance Sample.on_200_badly.

Lemma body_closed_once_witness :
  closes (trace (Do Sample.a_client Sample.a_request (Some Sample.a_target))) = 1%nat /\
  value (@Do (with_Close Sample.on_200_badly Sample.closes_fine) errorStructT _
           Sample.a_client Sample.a_request (Some Sample.a_target))
    = value (Do Sample.a_client Sample.a_request (Some Sample.a_target)).
Proof.
  destruct (body_closed_once (T := errorStructT) Sample.a_client Sample.a_request
              (Some Sample.a_target) (Sample.response 200 Sample.error_m_7))
    as (Honce & _ & Hsame).
  - reflexivity.
  - split; [exact Honce | apply Hsame].
Defined.

(** The failed close is logged, after the close. *)
Lemma failed_close_is_logged :
  trace (Do Sample.a_client Sample.a_request (Some Sample.a_target))
    = [EvSend (stamped Sample.a_client Sample.a_request);
       EvDecode (Body (Sample.response 200 Sample.error_m_7)) IntoOut;
       EvClose (Body (Sample.response 200 Sample.error_m_7));
       EvLog (Lib (net_Error "use of closed network connection"))].
Proof. reflexivity. Qed.

End On_200_badly.

Lemma error_paths_leave_out_witness :
  (err_of (value (Sample.call Sample.offline (Some Sample.a_target)))
     = Some (Lib Sample.refused) /\
   out_of (value (Sample.call Sample.offline (Some Sample.a_target)))
     = Some Sample.a_target) /\
  (err_of (value (Sample.call Sample.on_403 (Some Sample.a_target)))
     = Some ErrNotAuthorized /\
   out_of (value (Sample.call Sample.on_403 (Some Sample.a_target)))
     = Some Sample.a_target) /\
  (exists r, @http_Client_Do Sample.on_200_m_7 (client Sample.a_client)
               (stamped Sample.a_client Sample.a_request) = inl r /\
             @checkResponse Sample.on_200_m_7 r = (None, [])).
Proof.
  split; [|split].
  - destruct (@error_paths_leave_out Sample.offline errorStructT
                (@errorStruct_Unmarshaler Sample.offline) Sample.a_client
                Sample.a_request (Some Sample.a_target)) as (Htransport & _).
    destruct (Htransport Sample.refused eq_refl) as (Herr & Hout & _).
    split; [exact Herr | exact Hout].
  - destruct (@error_paths_leave_out Sample.on_403 errorStructT
                (@errorStruct_Unmarshaler Sample.on_403) Sample.a_client
                Sample.a_request (Some Sample.a_target)) as (_ & Hclass & Hshape & _).
    destruct (Hclass (Sample.response 403 Sample.error_m_7) ErrNotAuthorized
                eq_refl eq_refl) as (Herr & Hout & _).
    split; [exact Herr|].
    apply (Hshape ErrNotAuthorized Herr). discriminate.
  - destruct (@error_paths_leave_out Sample.on_200_m_7 errorStructT
                (@errorStruct_Unmarshaler Sample.on_200_m_7) Sample.a_client
                Sample.a_request (Some Sample.a_target)) as (_ & _ & _ & Hafter).
    destruct (Hafter (Body (Sample.response 200 Sample.error_m_7)))
      as (r & Hsend & Hcheck & _).
    + apply list_elem_of_In. vm_compute. right. left. reflexivity.
    + exists r. split; [exact Hsend | exact Hcheck].
Defined.

Section On_200_m_x.

Local Existing Instance Sample.on_200_m_x.

(** A decoding that fails after the classification has succeeded can have
    written to the target: here the message is stored before the code is
    refused. *)
Lemma decode_failure_writes :
  value (Do Sample.a_client Sample.a_request (Some Sample.a_target))
    = {| err_of := Some (Lib (json_UnmarshalTypeError "string" "int"));
         req_of := stamped Sample.a_client Sample.a_request;
         out_of := Some {| ErrorData := {| Message := "m"; Code := 1 |} |} |}.
Proof.
  rewrite (Do_success_decode (T := errorStructT) Sample.a_client Sample.a_request
             Sample.a_target (Sample.response 200 Sample.error_m_x));
    [|reflexivity|reflexivity].
  unfold value at 1. unfold fst.
  assert (Hdec : value (Decoder_Decode (Body (Sample.response 200 Sample.error_m_x))
                          IntoOut Sample.a_target)
                 = ({| ErrorData := {| Message := "m"; Code := 1 |} |},
                    Some (json_UnmarshalTypeError "string" "int")))
    by (vm_compute; reflexivity).
  by rewrite Hdec.
Qed.

End On_200_m_x.

(** * Further properties *)

(** ** Construction and headers *)

Section More_construction.

Context `{P : Platform}.

(** X1. The host of a new client is never empty: the base URL is a
    non-empty host, which is the environment's, the argument or the
    default, followed by /v1. *)
Theorem NewClient_host_nonempty (token_ host version_ : string) :
  exists h,
    h ≠ "" /\
    baseURL (NewClient token_ host version_) = h +:+ "/v1" /\
    (h = os_Getenv "K6CLOUD_HOST" \/ h = host \/ h = "https://ingest.loadimpact.com").
Proof.
  unfold NewClient. simpl.
  destruct (String.eqb_spec (os_Getenv "K6CLOUD_HOST") "") as [Henv|Henv]; simpl.
  - destruct (String.eqb_spec host "") as [Hhost|Hhost].
    + exists "https://ingest.loadimpact.com". auto.
    + exists host. auto.
  - exists (os_Getenv "K6CLOUD_HOST").
    destruct (String.eqb_spec (os_Getenv "K6CLOUD_HOST") "") as [Henv'|_]; [done|].
    auto.
Qed.

(** Setting a key that is set again later is of no effect. *)
Lemma insert_absorbed (h : Header) (k k1 k2 k3 : string) (x v1 v2 v3 : list string) :
  k = k1 \/ k = k2 \/ k = k3 ->
  <[k3 := v3]> (<[k2 := v2]> (<[k1 := v1]> (<[k := x]> h)))
  = <[k3 := v3]> (<[k2 := v2]> (<[k1 := v1]> h)).
Proof.
  intros Hk. apply map_eq. intros i.
  rewrite !lookup_insert.
  repeat case_decide; try done.
  destruct Hk as [-> | [-> | ->]]; done.
Qed.

Lemma stamped_set_header (c : Client) (req : Request) (k v : string) :
  CanonicalMIMEHeaderKey k = "Content-Type" \/
  CanonicalMIMEHeaderKey k = "Authorization" \/
  CanonicalMIMEHeaderKey k = "User-Agent" ->
  stamped c (set_header req k v) = stamped c req.
Proof.
  intros Hk. destruct CanonicalMIMEHeaderKey_mandated as (Hct & Hauth & Hua).
  unfold stamped, set_header, Header_Set. simpl. f_equal.
  rewrite Hct, Hauth, Hua. by apply insert_absorbed.
Qed.

Lemma Do_req_of {T} `{Unmarshaler T} (c : Client) (req : Request) (v : option T) :
  req_of (value (Do c req v)) = stamped c req.
Proof.
  destruct (http_Client_Do (client c) (stamped c req)) as [r|e] eqn:Hsend.
  - destruct (value (checkResponse r)) as [e|] eqn:He.
    + by rewrite (Do_classified c req v r e Hsend He).
    + destruct v as [t|].
      * rewrite (Do_success_decode c req t r Hsend He). unfold value at 1. simpl.
        by destruct (value (Decoder_Decode _ _ _)).
      * by rewrite (Do_success_nil c req r Hsend He).
  - by rewrite (Do_transport_error c req v e Hsend).
Qed.

(** [Do] looks at the request through its three assignments only. *)
Lemma Do_stamped {T} `{Unmarshaler T} (c : Client) (req req' : Request) (v : option T) :
  stamped c req = stamped c req' -> Do c req v = Do c req' v.
Proof.
  intros Hsame. unfold Do. fold (stamped c req). fold (stamped c req').
  by rewrite Hsame.
Qed.


(** X3. A header of one of the three names that the caller has set
    through [Header.Set], in whatever case of letters, is replaced: the
    call does what it would do without it. *)
Theorem caller_header_overwritten {T} `{Unmarshaler T}
    (c : Client) (req : Request) (k x : string) (v : option T) :
  CanonicalMIMEHeaderKey k = "Content-Type" \/
  CanonicalMIMEHeaderKey k = "Authorization" \/
  CanonicalMIMEHeaderKey k = "User-Agent" ->
  Do c (set_header req k x) v = Do c req v.
Proof. intros Hk. apply Do_stamped. by apply stamped_set_header. Qed.

(** X4. A request built by [NewRequest] and sent by [Do] goes out with
    the three mandated headers and no other, with the method (GET for the
    empty one), the URL and the body it was built with. *)
Theorem NewRequest_then_Do {D T} `{Marshaler D} `{Unmarshaler T}
    (c0 c : Client) (method url : string) (data : option D)
    (req : Request) (v : option T) :
  NewRequest c0 method url data = inl req ->
  let sent := req_of (value (Do c req v)) in
  ReqHeader sent =
    {[ "Content-Type" := ["application/json"];
       "Authorization" := ["Token " +:+ token c];
       "User-Agent" := ["k6cloud/" +:+ version c] ]} /\
  dom (ReqHeader sent) = {[ "Content-Type"; "Authorization"; "User-Agent" ]} /\
  Method sent = (if String.eqb method "" then "GET" else method) /\
  URL sent = url /\
  ReqBody sent =
    match data with
    | Some d => match json_Marshal d with inl b => Some b | inr _ => None end
    | None => None
    end.
Proof.
  intros Hnew sent. subst sent. rewrite Do_req_of.
  assert (Hreq : req = {| Method := if String.eqb method "" then "GET" else method;
                          URL := url; ReqHeader := ∅;
                          ReqBody := match data with
                                     | Some d => match json_Marshal d with
                                                 | inl b => Some b
                                                 | inr _ => None
                                                 end
                                     | None => None
                                     end |}).
  { unfold NewRequest, http_NewRequest in Hnew.
    destruct data as [d|]; [destruct (json_Marshal d) as [b|e]; [|done]|];
      destruct (negb _); try done;
      destruct (url_Parse url); try done; by injection Hnew as <-. }
  rewrite Hreq. clear Hreq Hnew.
  destruct CanonicalMIMEHeaderKey_mandated as (Hct & Hauth & Hua).
  unfold stamped, set_header, Header_Set. simpl. rewrite Hct, Hauth, Hua.
  assert (Hmap : <["User-Agent" := ["k6cloud/" +:+ version c]]>
                   (<["Authorization" := ["Token " +:+ token c]]>
                      (<["Content-Type" := ["application/json"]]> (∅ : Header)))
                 = {[ "Content-Type" := ["application/json"];
                      "Authorization" := ["Token " +:+ token c];
                      "User-Agent" := ["k6cloud/" +:+ version c] ]}).
  { apply map_eq. intros i.
    rewrite !lookup_insert, lookup_singleton, lookup_empty.
    repeat case_decide; congruence. }
  rewrite Hmap. split; [done|]. split; [|done].
  rewrite !dom_insert_L, dom_singleton_L.
  apply set_eq. intros i. rewrite !elem_of_union, !elem_of_singleton. tauto.
Qed.

End More_construction.

(** ** Classification and decoding *)

Section More_execution.

Context `{P : Platform}.

(** The four ways of a status through [checkResponse]. *)
Lemma status_cases (c : Z) :
  200 <= c <= 299 \/ c = 401 \/ c = 403 \/
  (~ 200 <= c <= 299 /\ c ≠ 401 /\ c ≠ 403).
Proof. lia. Qed.

(** X5. [Do] returns no error only for a response that was received with
    a status from 200 to 299: neither a failed transport nor any other
    status is ever reported as a success. *)
Theorem success_means_2xx {T} `{Unmarshaler T}
    (c : Client) (req : Request) (v : option T) :
  err_of (value (Do c req v)) = None ->
  exists r, http_Client_Do (client c) (stamped c req) = inl r /\
            200 <= StatusCode r <= 299.
Proof.
  intros Hnil.
  destruct (http_Client_Do (client c) (stamped c req)) as [r|e] eqn:Hsend.
  - exists r. split; [done|].
    destruct (value (checkResponse r)) as [e|] eqn:He.
    + by rewrite (Do_classified c req v r e Hsend He) in Hnil.
    + by apply checkResponse_shape.
  - by rewrite (Do_transport_error c req v e Hsend) in Hnil.
Qed.

(** X7. The classification is exact: no error exactly for 200 to 299,
    [ErrNotAuthenticated] exactly for 401 and [ErrNotAuthorized] exactly
    for 403. *)
Theorem classification_exact (r : Response) :
  (value (checkResponse r) = None <-> 200 <= StatusCode r <= 299) /\
  (value (checkResponse r) = Some ErrNotAuthenticated <-> StatusCode r = 401) /\
  (value (checkResponse r) = Some ErrNotAuthorized <-> StatusCode r = 403).
Proof.
  destruct (status_cases (StatusCode r)) as [H2 | [H401 | [H403 | (H2 & H401 & H403)]]].
  - rewrite (checkResponse_2xx r H2). simpl.
    repeat split; try done; lia.
  - rewrite (checkResponse_401 r H401). simpl.
    repeat split; try done; lia.
  - rewrite (checkResponse_403 r H403). simpl.
    repeat split; try done; lia.
  - rewrite (checkResponse_other r H2 H401 H403). unfold value at 1 3 5. simpl.
    destruct (value _) as [es [e|]]; repeat split; done.
Qed.

(** An [ErrorResponse] out of [Do] comes from the classification of the
    response it holds. *)
Lemma Do_ErrorResponse_inv {T} `{Unmarshaler T}
    (c : Client) (req : Request) (v : option T)
    (r' : Response) (m : string) (code : Z) :
  err_of (value (Do c req v)) = Some (ErrorResponse r' m code) ->
  http_Client_Do (client c) (stamped c req) = inl r' /\
  value (checkResponse r') = Some (ErrorResponse r' m code).
Proof.
  intros Herr.
  destruct (http_Client_Do (client c) (stamped c req)) as [r|e] eqn:Hsend.
  - destruct (value (checkResponse r)) as [e|] eqn:He.
    + rewrite (Do_classified c req v r e Hsend He) in Herr.
      injection Herr as ->.
      destruct (checkResponse_errors r _ He) as [Hs | [Hs | [(m' & c' & Hs) | (l & Hs)]]];
        try discriminate.
      by injection Hs as -> _ _.
    + exfalso. destruct v as [t|].
      * rewrite (Do_success_decode c req t r Hsend He) in Herr.
        unfold value at 1 in Herr. simpl in Herr.
        destruct (value (Decoder_Decode _ _ _)) as [t' [l|]]; simpl in Herr;
          [by destruct l | done].
      * by rewrite (Do_success_nil c req r Hsend He) in Herr.
  - by rewrite (Do_transport_error c req v e Hsend) in Herr.
Qed.

(** X8. An [ErrorResponse] that [Do] returns holds the response that was
    received for this request, and its status is neither from 200 to 299
    nor 401 nor 403; what [v] points to is as before. *)
Theorem ErrorResponse_origin {T} `{Unmarshaler T}
    (c : Client) (req : Request) (v : option T)
    (r' : Response) (m : string) (code : Z) :
  err_of (value (Do c req v)) = Some (ErrorResponse r' m code) ->
  http_Client_Do (client c) (stamped c req) = inl r' /\
  ~ 200 <= StatusCode r' <= 299 /\ StatusCode r' ≠ 401 /\ StatusCode r' ≠ 403 /\
  out_of (value (Do c req v)) = v.
Proof.
  intros Herr. destruct (Do_ErrorResponse_inv c req v r' m code Herr) as [Hsend He].
  split; [done|].
  destruct (status_cases (StatusCode r')) as [H2 | [H401 | [H403 | (H2 & H401 & H403)]]].
  - by rewrite (checkResponse_2xx r' H2) in He.
  - by rewrite (checkResponse_401 r' H401) in He.
  - by rewrite (checkResponse_403 r' H403) in He.
  - repeat split; try done.
    by rewrite (Do_classified c req v r' _ Hsend He).
Qed.

(** X9. Once a response was received, an error of a library that [Do]
    returns as it is comes from the decoding into [v] after a status from
    200 to 299, and it is never [io.EOF]: that one is dropped there, and
    wrapped for the other statuses. *)
Theorem no_bare_EOF {T} `{Unmarshaler T}
    (c : Client) (req : Request) (v : option T) (r : Response) (l : LibError) :
  http_Client_Do (client c) (stamped c req) = inl r ->
  err_of (value (Do c req v)) = Some (Lib l) ->
  l ≠ io_EOF /\
  200 <= StatusCode r <= 299 /\
  exists t t', v = Some t /\
               value (Decoder_Decode (Body r) IntoOut t) = (t', Some l).
Proof.
  intros Hsend Herr.
  destruct (value (checkResponse r)) as [e|] eqn:He.
  - rewrite (Do_classified c req v r e Hsend He) in Herr. injection Herr as ->.
    destruct (checkResponse_errors r _ He) as [Hs | [Hs | [(m' & c' & Hs) | (l' & Hs)]]];
      discriminate.
  - pose proof (proj1 (proj1 (checkResponse_shape r)) He) as H2.
    destruct v as [t|].
    + rewrite (Do_success_decode c req t r Hsend He) in Herr.
      unfold value at 1 in Herr. simpl in Herr.
      destruct (value (Decoder_Decode (Body r) IntoOut t)) as [t' [l'|]] eqn:Hdec;
        simpl in Herr; [|done].
      destruct l'; simpl in Herr; try discriminate; injection Herr as <-;
        (split; [done|]; split; [done|]; by exists t, t').
    + by rewrite (Do_success_nil c req r Hsend He) in Herr.
Qed.

End More_execution.

Section More_decoding.

Context `{P : Platform}.

(** X6. After a response was received its body is read at most once in a
    call, and no other body is: into the error struct exactly for a status
    that is neither from 200 to 299 nor 401 nor 403, into [v] exactly for a
    status from 200 to 299 with a non-nil [v]. *)
Theorem body_read_at_most_once {T} `{Unmarshaler T}
    (c : Client) (req : Request) (v : option T) (r : Response) :
  http_Client_Do (client c) (stamped c req) = inl r ->
  let t := trace (Do c req v) in
  (decodes t <= 1)%nat /\
  (forall b into, EvDecode b into ∈ t -> b = Body r) /\
  (EvDecode (Body r) IntoErrorStruct ∈ t <->
     ~ 200 <= StatusCode r <= 299 /\ StatusCode r ≠ 401 /\ StatusCode r ≠ 403) /\
  (EvDecode (Body r) IntoOut ∈ t <-> 200 <= StatusCode r <= 299 /\ is_Some v).
Proof.
  intros Hsend t.
  assert (Hcases :
    (t = EvSend (stamped c req) :: trace (close_body r) /\
     (StatusCode r = 401 \/ StatusCode r = 403 \/
      (200 <= StatusCode r <= 299 /\ v = None))) \/
    (t = EvSend (stamped c req) :: EvDecode (Body r) IntoErrorStruct
           :: trace (close_body r) /\
     ~ 200 <= StatusCode r <= 299 /\ StatusCode r ≠ 401 /\ StatusCode r ≠ 403) \/
    (t = EvSend (stamped c req) :: EvDecode (Body r) IntoOut
           :: trace (close_body r) /\
     200 <= StatusCode r <= 299 /\ is_Some v)).
  { subst t.
    destruct (status_cases (StatusCode r))
      as [H2 | [H401 | [H403 | (H2 & H401 & H403)]]].
    - pose proof (checkResponse_2xx r H2) as Hcheck.
      destruct v as [x|].
      + right. right.
        rewrite (Do_success_decode c req x r Hsend) by by rewrite Hcheck.
        rewrite Hcheck. split; [done|]. split; [done|by eexists].
      + left. rewrite (Do_success_nil c req r Hsend) by by rewrite Hcheck.
        rewrite Hcheck. auto.
    - pose proof (checkResponse_401 r H401) as Hcheck. left.
      rewrite (Do_classified c req v r ErrNotAuthenticated Hsend)
        by by rewrite Hcheck.
      rewrite Hcheck. auto.
    - pose proof (checkResponse_403 r H403) as Hcheck. left.
      rewrite (Do_classified c req v r ErrNotAuthorized Hsend)
        by by rewrite Hcheck.
      rewrite Hcheck. auto.
    - pose proof (checkResponse_other r H2 H401 H403) as Hcheck. right. left.
      destruct (checkResponse_shape r) as [Hnone _].
      destruct (value (checkResponse r)) as [e|] eqn:He; [|by destruct H2; apply Hnone].
      rewrite (Do_classified c req v r e Hsend He).
      rewrite Hcheck. auto. }
  clearbody t. rewrite close_body_trace in Hcases.
  destruct Hcases as [[-> Hst] | [(-> & H2 & H401 & H403) | (-> & H2 & Hv)]];
    unfold decodes; destruct (Body_Close (Body r)); simpl;
    (split; [lia|]); (split; [intros b into Hin; in_trace Hin; congruence|]);
    split; split;
    try (intros Hin; in_trace Hin; fail);
    try (intros _; apply list_elem_of_In; simpl; tauto);
    try done.
  all: try (intros (Hn & H401 & H403); exfalso;
            destruct Hst as [? | [? | [? ?]]]; tauto).
  all: try (intros [H2 [x Hx]]; exfalso;
            destruct Hst as [? | [? | [? ?]]]; [lia | lia | congruence]).
  all: try (intros [? _]; tauto).
  all: try (intros; tauto).
Qed.





End More_decoding.

Section More_shape.

Context `{P : Platform}.

(** A struct is stored without error exactly when every member is. *)
Lemma store_struct_ok {S} (type : string)
    (member : string -> JSON -> S -> S * option LibError)
    (ok : string * JSON -> bool) (j : JSON) (old : S) :
  (forall k v s, snd (member k v s) = None <-> ok (k, v) = true) ->
  snd (store_struct type member j old) = None <->
  match j with
  | JNull => True
  | JObject members => forallb ok members = true
  | _ => False
  end.
Proof.
  intros Hok. destruct j as [| | | | |members]; simpl; try done.
  assert (Hfold : forall s saved,
    snd (fold_left
           (fun (acc : S * option LibError) (kv : string * JSON) =>
              let '(s, saved) := acc in
              let '(s', err) := member (fst kv) (snd kv) s in
              (s', saveError saved err))
           members (s, saved)) = None
    <-> saved = None /\ forallb ok members = true).
  { induction members as [|[k v] members IH]; intros s saved; simpl.
    - tauto.
    - pose proof (Hok k v s) as Hkv.
      destruct (member k v s) as [s' err]. simpl in Hkv.
      rewrite IH, andb_true_iff, <- Hkv.
      destruct saved, err; simpl; split; intros; try tauto;
        destruct_and?; done. }
  rewrite Hfold. tauto.
Qed.

(** Every error of the storing into a struct is a type error, if those of
    the members are. *)
Lemma store_struct_error_kind {S} (type : string)
    (member : string -> JSON -> S -> S * option LibError)
    (j : JSON) (old : S) (e : LibError) :
  (forall k v s e', snd (member k v s) = Some e' ->
     exists what ty, e' = json_UnmarshalTypeError what ty) ->
  snd (store_struct type member j old) = Some e ->
  exists what ty, e = json_UnmarshalTypeError what ty.
Proof.
  intros Hmem. destruct j as [| | | | |members]; simpl;
    try (intros [= <-]; eauto; fail).
  assert (Hfold : forall s saved,
    (forall e', saved = Some e' -> exists what ty, e' = json_UnmarshalTypeError what ty) ->
    snd (fold_left
           (fun (acc : S * option LibError) (kv : string * JSON) =>
              let '(s, saved) := acc in
              let '(s', err) := member (fst kv) (snd kv) s in
              (s', saveError saved err))
           members (s, saved)) = Some e ->
    exists what ty, e = json_UnmarshalTypeError what ty).
  { induction members as [|[k v] members IH]; intros s saved Hsaved; simpl.
    - apply Hsaved.
    - pose proof (Hmem k v s) as Hkv.
      destruct (member k v s) as [s' err]. simpl in Hkv.
      apply IH. intros e' He'.
      destruct saved as [e0|]; simpl in He'; [by apply Hsaved|by apply Hkv]. }
  apply Hfold. done.
Qed.

Lemma store_errorData_member_ok (k : string) (v : JSON) (d : errorDataT) :
  snd (store_errorData_member k v d) = None <-> errorData_member_ok (k, v) = true.
Proof.
  unfold store_errorData_member, errorData_member_ok. simpl.
  destruct (find_field _ k) as [f|]; [|done].
  destruct (String.eqb f "message").
  { destruct v; simpl; done. }
  destruct (String.eqb f "code"); [|done].
  destruct v; simpl; try done.
  destruct (strconv_ParseInt lit) as [n|]; [|done].
  by destruct (OverflowInt n).
Qed.

Lemma store_errorStruct_member_ok (k : string) (v : JSON) (s : errorStructT) :
  snd (store_errorStruct_member k v s) = None <-> errorStruct_member_ok (k, v) = true.
Proof.
  unfold store_errorStruct_member, errorStruct_member_ok. simpl.
  destruct (find_field _ k) as [f|]; [|done].
  pose proof (store_struct_ok "struct" store_errorData_member errorData_member_ok
                v (ErrorData s) store_errorData_member_ok) as Hv.
  destruct (store_struct _ _ v (ErrorData s)) as [d err]. simpl in *.
  rewrite Hv. unfold errorData_ok. by destruct v.
Qed.

(** The error struct takes exactly the payloads of the API's shape. *)
Lemma unmarshal_ok (j : JSON) (s : errorStructT) :
  snd (unmarshal j s) = None <-> well_shaped j = true.
Proof.
  simpl. rewrite (store_struct_ok _ _ errorStruct_member_ok)
    by apply store_errorStruct_member_ok.
  unfold well_shaped. by destruct j.
Qed.

Lemma unmarshal_error_kind (j : JSON) (s : errorStructT) (e : LibError) :
  snd (unmarshal j s) = Some e -> exists what ty, e = json_UnmarshalTypeError what ty.
Proof.
  simpl. apply store_struct_error_kind. intros k v s' e'.
  unfold store_errorStruct_member.
  destruct (find_field ["error"] k); [|done].
  destruct (store_struct _ _ v (ErrorData s')) as [d err] eqn:Hd. simpl.
  intros ->.
  assert (Hd' : snd (store_struct "struct" store_errorData_member v (ErrorData s'))
                = Some e') by by rewrite Hd.
  revert Hd'. apply store_struct_error_kind. clear.
  intros k v d e. unfold store_errorData_member.
  destruct (find_field _ k) as [f|]; [|done].
  destruct (String.eqb f "message").
  { destruct v; simpl; intros [= <-]; eauto. }
  destruct (String.eqb f "code"); [|done].
  destruct v; simpl; try (intros [= <-]; eauto; fail).
  destruct (strconv_ParseInt lit) as [n|]; [|intros [= <-]; eauto].
  destruct (OverflowInt n); [intros [= <-]; eauto|done].
Qed.

(** X11. For a status that is neither from 200 to 299 nor 401 nor 403 and
    a body that holds a JSON value, the shape of the value decides the
    error of the call: a null, or an object whose error members are null
    or objects with a string or null as message and an integer of [int]
    or null as code, gives an [ErrorResponse]; every other value gives the
    wrapped non-standard error, with a type error as its cause. *)
Theorem shape_decides_error {T} `{Unmarshaler T}
    (c : Client) (req : Request) (v : option T) (r : Response) (j : JSON) :
  http_Client_Do (client c) (stamped c req) = inl r ->
  ~ 200 <= StatusCode r <= 299 -> StatusCode r ≠ 401 -> StatusCode r ≠ 403 ->
  Decoder_readValue (Body r) = inr j ->
  (well_shaped j = true ->
     exists m code, err_of (value (Do c req v)) = Some (ErrorResponse r m code)) /\
  (well_shaped j = false ->
     exists what ty,
       err_of (value (Do c req v))
       = Some (withStack (Lib (json_UnmarshalTypeError what ty))
                 "Non-standard API error response")).
Proof.
  intros Hsend H2 H401 H403 Hread.
  pose proof (checkResponse_other r H2 H401 H403) as Hcheck.
  assert (Hdec : value (Decoder_Decode (Body r) IntoErrorStruct zeroErrorStruct)
                 = unmarshal j zeroErrorStruct).
  { io_unfold. simpl. by rewrite Hread. }
  rewrite Hdec in Hcheck.
  pose proof (unmarshal_ok j zeroErrorStruct) as Hok.
  pose proof (unmarshal_error_kind j zeroErrorStruct) as Hkind.
  destruct (unmarshal j zeroErrorStruct) as [es [e|]]; simpl in *.
  - split; intros Hshape.
    + apply Hok in Hshape. discriminate.
    + destruct (Hkind e eq_refl) as (what & ty & ->). exists what, ty.
      erewrite (Do_classified c req v r _ Hsend); [done|]. by rewrite Hcheck.
  - split; intros Hshape.
    + eexists _, _. erewrite (Do_classified c req v r _ Hsend); [done|].
      by rewrite Hcheck.
    + rewrite (proj1 Hok eq_refl) in Hshape. discriminate.
Qed.

End More_shape.

(** ** The further properties on the sample platforms *)

Section More_on_204.

Local Existing Instance Sample.on_204.

Lemma caller_header_overwritten_witness :
  CanonicalMIMEHeaderKey "content-type" = "Content-Type" /\
  Do Sample.a_client (set_header Sample.a_request "content-type" "application/xml")
    (@None errorStructT)
  = Do Sample.a_client Sample.a_request None.
Proof.
  assert (Hk : CanonicalMIMEHeaderKey "content-type" = "Content-Type")
    by (vm_compute; reflexivity).
  split; [exact Hk|].
  apply (caller_header_overwritten (T := errorStructT) Sample.a_client
           Sample.a_request "content-type" "application/xml" None).
  left. exact Hk.
Defined.

Lemma NewRequest_then_Do_witness :
  let req := {| Method := "POST"; URL := "https://example.test/v1/tests";
                ReqHeader := ∅; ReqBody := Some "true" |} in
  NewRequest Sample.a_client "POST" "https://example.test/v1/tests"
    (Some (Sample.GoBool true)) = inl req /\
  dom (ReqHeader (req_of (value (Do Sample.b_client req (@None errorStructT)))))
  = {[ "Content-Type"; "Authorization"; "User-Agent" ]} /\
  ReqBody (req_of (value (Do Sample.b_client req (@None errorStructT)))) = Some "true".
Proof.
  intros req.
  assert (Hnew : NewRequest Sample.a_client "POST" "https://example.test/v1/tests"
                   (Some (Sample.GoBool true)) = inl req) by reflexivity.
  destruct (NewRequest_then_Do (T := errorStructT) Sample.a_client Sample.b_client
              "POST" "https://example.test/v1/tests" (Some (Sample.GoBool true))
              req None Hnew) as (_ & Hdom & _ & _ & Hbody).
  split; [exact Hnew|]. split; [exact Hdom | exact Hbody].
Defined.

Lemma success_means_2xx_witness :
  exists r, http_Client_Do (client Sample.a_client)
              (stamped Sample.a_client Sample.a_request) = inl r /\
            200 <= StatusCode r <= 299.
Proof.
  apply (success_means_2xx (T := errorStructT) Sample.a_client Sample.a_request None).
  vm_compute. reflexivity.
Defined.

End More_on_204.

Section More_on_500.

Local Existing Instance Sample.on_500.

Lemma body_read_at_most_once_witness :
  (decodes (trace (Do Sample.a_client Sample.a_request (Some Sample.a_target))) <= 1)%nat /\
  EvDecode (Body (Sample.response 500 Sample.error_m_7)) IntoErrorStruct
    ∈ trace (Do Sample.a_client Sample.a_request (Some Sample.a_target)).
Proof.
  destruct (body_read_at_most_once (T := errorStructT) Sample.a_client
              Sample.a_request (Some Sample.a_target)
              (Sample.response 500 Sample.error_m_7))
    as (Hone & _ & Hinto & _); [reflexivity|].
  split; [exact Hone|]. apply Hinto. simpl. lia.
Defined.

Lemma ErrorResponse_origin_witness :
  http_Client_Do (client Sample.a_client) (stamped Sample.a_client Sample.a_request)
    = inl (Sample.response 500 Sample.error_m_7) /\
  out_of (value (Do Sample.a_client Sample.a_request (Some Sample.a_target)))
    = Some Sample.a_target.
Proof.
  destruct (ErrorResponse_origin (T := errorStructT) Sample.a_client Sample.a_request
              (Some Sample.a_target) (Sample.response 500 Sample.error_m_7) "m" 7)
    as (Hsend & _ & _ & _ & Hout).
  - vm_compute. reflexivity.
  - split; [exact Hsend | exact Hout].
Defined.


End More_on_500.

Lemma no_bare_EOF_witness :
  200 <= StatusCode (Sample.response 200 "{") <= 299 /\
  exists t t', Some Sample.a_target = Some t /\
    value (@Decoder_Decode Sample.on_200_cut errorStructT
             (@errorStruct_Unmarshaler Sample.on_200_cut)
             (Body (Sample.response 200 "{")) IntoOut t)
    = (t', Some io_ErrUnexpectedEOF).
Proof.
  apply (@no_bare_EOF Sample.on_200_cut errorStructT
           (@errorStruct_Unmarshaler Sample.on_200_cut) Sample.a_client
           Sample.a_request (Some Sample.a_target) (Sample.response 200 "{")
           io_ErrUnexpectedEOF).
  - reflexivity.
  - vm_compute. reflexivity.
Defined.

Lemma shape_decides_error_witness :
  (exists m code,
     err_of (value (Sample.call Sample.on_500 None))
     = Some (ErrorResponse (Sample.response 500 Sample.error_m_7) m code)) /\
  (exists what ty,
     err_of (value (Sample.call Sample.on_500_m_x None))
     = Some (withStack (Lib (json_UnmarshalTypeError what ty))
               "Non-standard API error response")).
Proof.
  split.
  - destruct (@shape_decides_error Sample.on_500 errorStructT
                (@errorStruct_Unmarshaler Sample.on_500) Sample.a_client
                Sample.a_request None (Sample.response 500 Sample.error_m_7)
                Sample.payload_m_7) as [Hgood _].
    + reflexivity.
    + simpl. lia.
    + simpl. lia.
    + simpl. lia.
    + vm_compute. reflexivity.
    + apply Hgood. vm_compute. reflexivity.
  - destruct (@shape_decides_error Sample.on_500_m_x errorStructT
                (@errorStruct_Unmarshaler Sample.on_500_m_x) Sample.a_client
                Sample.a_request None (Sample.response 500 Sample.error_m_x)
                (JObject [("error",
                   JObject [("message", JString "m"); ("code", JString "x")])]))
      as [_ Hbad].
    + reflexivity.
    + simpl. lia.
    + simpl. lia.
    + simpl. lia.
    + vm_compute. reflexivity.
    + apply Hbad. vm_compute. reflexivity.
Defined.

Section More_logging.

Context `{P : Platform}.

(** X12. [Do] logs nothing but the error of a close that failed: an
    error is logged exactly when a response was received and the close
    of its body returned that error. *)
Theorem logs_only_failed_close {T} `{Unmarshaler T}
    (c : Client) (req : Request) (v : option T) (e : error) :
  EvLog e ∈ trace (Do c req v) <->
  exists r l, http_Client_Do (client c) (stamped c req) = inl r /\
              Body_Close (Body r) = Some l /\ e = Lib l.
Proof.
  destruct (http_Client_Do (client c) (stamped c req)) as [r|l] eqn:Hsend.
  - destruct (Do_trace_response c req v r Hsend) as (used & -> & Hused & _).
    rewrite close_body_trace, elem_of_cons, elem_of_app, !elem_of_cons.
    split.
    + intros [Hin | [Hin | [Hin | Hin]]]; try discriminate.
      * rewrite Forall_forall in Hused. by specialize (Hused _ Hin).
      * destruct (Body_Close (Body r)) as [l|] eqn:Hclose.
        -- apply list_elem_of_singleton in Hin. injection Hin as ->. by exists r, l.
        -- by apply elem_of_nil in Hin.
    + intros (r' & l & [= <-] & Hclose & ->). right. right. right.
      rewrite Hclose. by left.
  - rewrite (Do_transport_error c req v l Hsend). unfold trace. simpl. split.
    + intros Hin. in_trace Hin.
    + by intros (r & l' & Hr & _).
Qed.

End More_logging.
